(** * Tool database of the woodpecker screen: registry, reconciliation, timer

    A shallow embedding of [woodpecker/tool_db/tool_db.py]: the two table
    models ([MyOffsetModel] over table [offsets], [MyToolModel] over table
    [tools]) and the logic of the [Tool_Database] widget that sits on them
    (reconciliation against the controller's tool list, the exclusive check
    box, the usage timer, the lookups and the export of the offsets table).

    A table model is the list of its rows in the model's current row order;
    a row is a record with one field per column of the [CREATE TABLE]
    statement.  Python [int] is [Z], Python [float] is the kernel's binary64
    [float], [str] is [string].  The store is taken to accept every insert,
    update and delete it is sent, except an insert that repeats a primary
    key. *)

From Stdlib Require Import ZArith String Ascii List Lia Bool.
From Stdlib Require Import PrimFloat FloatOps SpecFloat DecimalString.
From stdpp Require Import base tactics option list.
Import ListNotations.

Open Scope Z_scope.

(** ** The Python built-ins the source uses on numbers *)

Module Py.

Local Open Scope string_scope.

(** Nearest integer to [p / q], ties to even, for [0 <= p] and [0 < q]. *)
Definition round_half_even (p q : Z) : Z :=
  let d := p / q in
  let r := p mod q in
  match Z.compare (2 * r) q with
  | Lt => d
  | Gt => d + 1
  | Eq => if Z.even d then d else d + 1
  end.

Definition string_of_N (n : N) : string :=
  NilZero.string_of_uint (N.to_uint n).

Fixpoint zeros (n : nat) : string :=
  match n with
  | O => ""
  | S k => String "0" (zeros k)
  end.

(** Left-pads [s] with zeros up to [n] characters. *)
Definition pad_left (n : nat) (s : string) : string :=
  zeros (n - String.length s) ++ s.

(** The decimal rendering of [n / 10^d] with exactly [d] fraction digits. *)
Definition fixed_digits (d : nat) (n : Z) : string :=
  let s := pad_left (S d) (string_of_N (Z.to_N n)) in
  let k := (String.length s - d)%nat in
  match d with
  | O => s
  | _ => substring 0 k s ++ "." ++ substring k d s
  end.

Definition sign_str (s : bool) : string := if s then "-" else "".

(** ["{:.<d>f}".format(x)]: the exact binary value of [x] rounded to [d]
    fraction digits, ties to even. *)
Definition format_fixed (d : nat) (x : float) : string :=
  match Prim2SF x with
  | S754_nan => "nan"
  | S754_infinity s => sign_str s ++ "inf"
  | S754_zero s => sign_str s ++ fixed_digits d 0
  | S754_finite s m e =>
      let scaled := Z.pos m * 10 ^ Z.of_nat d in
      let n := match e with
               | Z.neg p => round_half_even scaled (2 ^ Z.pos p)
               | _ => scaled * 2 ^ e
               end in
      sign_str s ++ fixed_digits d n
  end.

(** The binary64 number nearest to [p / q] (ties to even), for [0 < p] and
    [0 < q]: the quotient is computed with more than [prec] bits and a sticky
    bit, and rounded once by [binary_round]. *)
Definition float_of_ratio (neg : bool) (p q : Z) : float :=
  match p, q with
  | Z.pos _, Z.pos _ =>
      let k := Z.max 0 (64 + Z.log2 q - Z.log2 p) in
      let n := p * 2 ^ k in
      let sticky := if Z.eqb (n mod q) 0 then 0 else 1 in
      match (2 * (n / q) + sticky)%Z with
      | Z.pos m => SF2Prim (binary_round prec emax neg m (- k - 1)%Z)
      | _ => SF2Prim (S754_zero neg)
      end
  | _, _ => SF2Prim (S754_zero neg)
  end.

(** [a / b] on two Python ints ([None] stands for [ZeroDivisionError]). *)
Definition int_truediv (a b : Z) : option float :=
  if Z.eqb b 0 then None
  else Some (float_of_ratio (xorb (Z.ltb a 0) (Z.ltb b 0)) (Z.abs a) (Z.abs b)).

(** [int(x)] on a float: truncation toward zero; [None] stands for the
    [ValueError] on a NaN and the [OverflowError] on an infinity. *)
Definition int_of_float (x : float) : option Z :=
  match Prim2SF x with
  | S754_nan | S754_infinity _ => None
  | S754_zero _ => Some 0
  | S754_finite s m e =>
      let a := match e with
               | Z.neg p => Z.pos m / 2 ^ Z.pos p
               | _ => Z.pos m * 2 ^ e
               end in
      Some (if s then - a else a)
  end.

Definition digit_of (c : ascii) : option Z :=
  let n := Z.of_nat (nat_of_ascii c) in
  if Z.leb 48 n && Z.leb n 57 then Some (n - 48) else None.

(** Reads a run of decimal digits onto the accumulator [acc]; returns the
    number read, how many digits it had, and the rest of the string. *)
Fixpoint read_digits (s : string) (acc : Z) (cnt : nat) : Z * nat * string :=
  match s with
  | String c rest =>
      match digit_of c with
      | Some d => read_digits rest (10 * acc + d) (S cnt)
      | None => (acc, cnt, s)
      end
  | EmptyString => (acc, cnt, s)
  end.

(** [float(s)] on the strings [format_fixed] writes: an optional sign, then
    ["nan"], ["inf"] or digits with an optional fraction part.  Any other
    string gives [None]. *)
Definition float_of_string (s : string) : option float :=
  let '(neg, body) := match s with
                      | String "-" rest => (true, rest)
                      | _ => (false, s)
                      end in
  if String.eqb body "nan" then Some nan
  else if String.eqb body "inf" then Some (if neg then neg_infinity else infinity)
  else
    let '(ip, ni, rest) := read_digits body 0 0 in
    match ni, rest with
    | O, _ => None
    | _, EmptyString => Some (float_of_ratio neg ip 1)
    | _, String "." frac =>
        let '(n, nf, rest') := read_digits frac ip 0 in
        match rest' with
        | EmptyString => Some (float_of_ratio neg n (10 ^ Z.of_nat nf))
        | _ => None
        end
    | _, _ => None
    end.

End Py.

Local Open Scope string_scope.

(** ** Cell values and rows *)

(** What a cell of a table model holds (a [QVariant]): a Python int, float
    or str, or nothing. *)
Inductive value :=
| VInt (z : Z)
| VReal (x : float)
| VText (s : string)
| VNull.

(** A row of table [offsets], one field per column of [create_offset_table]. *)
Record offset_rec := mkOffset {
  o_idn : Z;
  o_Chk : Z;
  o_Tool : Z;
  o_Pocket : Z;
  o_X : float;
  o_Y : float;
  o_Z : float;
  o_A : float;
  o_B : float;
  o_C : float;
  o_U : float;
  o_V : float;
  o_W : float;
  o_Diameter : float;
  o_I : float;
  o_J : float;
  o_Q : Z;
  o_Comment : string
}.

(** A row of table [tools], one field per column of [create_tool_table].
    The columns [MyToolModel.addrow] does not set can hold NULL, which is
    [None] here. *)
Record tool_rec := mkTool {
  t_idn : Z;
  t_TOOL : Z;
  t_TIME : float;
  t_RPM : option Z;
  t_CPT : option float;
  t_LENGTH : option float;
  t_FLUTES : option Z;
  t_FEED : option Z;
  t_MFG : option string;
  t_ICON : option string
}.

(** A line of the controller's tool array: sixteen positional values, the
    tool number first, in the order of the offsets columns from [Tool] on. *)
Record tool_line := mkLine {
  l_Tool : Z;
  l_Pocket : Z;
  l_X : float;
  l_Y : float;
  l_Z : float;
  l_A : float;
  l_B : float;
  l_C : float;
  l_U : float;
  l_V : float;
  l_W : float;
  l_Diameter : float;
  l_I : float;
  l_J : float;
  l_Q : Z;
  l_Comment : string
}.

(** [data[i]]: the line as the Python list it is. *)
Definition line_values (data : tool_line) : list value :=
  [VInt (l_Tool data);
   VInt (l_Pocket data);
   VReal (l_X data);
   VReal (l_Y data);
   VReal (l_Z data);
   VReal (l_A data);
   VReal (l_B data);
   VReal (l_C data);
   VReal (l_U data);
   VReal (l_V data);
   VReal (l_W data);
   VReal (l_Diameter data);
   VReal (l_I data);
   VReal (l_J data);
   VInt (l_Q data);
   VText (l_Comment data)].

(** The column names of table [offsets], in the order of the [CREATE TABLE]
    statement: [rec.fieldName(i)]. *)
Definition offset_fields : list string :=
  ["idn"; "Chk"; "Tool"; "Pocket"; "X"; "Y"; "Z"; "A"; "B"; "C"; "U"; "V"; "W"; "Diameter"; "I"; "J"; "Q"; "Comment"].

(** The dict [offset_headers] as [MyOffsetModel.__init__] fills it: column
    name to column index, for the columns with [i > 1] only, in insertion
    order. *)
Definition offset_headers : list (string * nat) :=
  List.filter (fun p => Nat.ltb 1 (snd p)) (imap (fun i hdr => (hdr, i)) offset_fields).

(** The stored value of column [col] of a row ([QSqlTableModel.data]); a
    column outside the table gives the invalid variant. *)
Definition cell (r : offset_rec) (col : nat) : value :=
  match col with
  | 0%nat => VInt (o_idn r)
  | 1%nat => VInt (o_Chk r)
  | 2%nat => VInt (o_Tool r)
  | 3%nat => VInt (o_Pocket r)
  | 4%nat => VReal (o_X r)
  | 5%nat => VReal (o_Y r)
  | 6%nat => VReal (o_Z r)
  | 7%nat => VReal (o_A r)
  | 8%nat => VReal (o_B r)
  | 9%nat => VReal (o_C r)
  | 10%nat => VReal (o_U r)
  | 11%nat => VReal (o_V r)
  | 12%nat => VReal (o_W r)
  | 13%nat => VReal (o_Diameter r)
  | 14%nat => VReal (o_I r)
  | 15%nat => VReal (o_J r)
  | 16%nat => VInt (o_Q r)
  | 17%nat => VText (o_Comment r)
  | _ => VNull
  end.

(** Writes [v] into column [col] of a row ([QSqlTableModel.setData] with the
    edit role).  Rows are typed by the schema: a value that has not the type
    of its column is outside the model, and the row is left as it is. *)
Definition set_cell (col : nat) (v : value) (r : offset_rec) : offset_rec :=
  match col, v with
  | 0%nat, VInt x =>
      mkOffset x (o_Chk r) (o_Tool r) (o_Pocket r) (o_X r) (o_Y r) (o_Z r) (o_A r) (o_B r) (o_C r) (o_U r) (o_V r) (o_W r) (o_Diameter r) (o_I r) (o_J r) (o_Q r) (o_Comment r)
  | 1%nat, VInt x =>
      mkOffset (o_idn r) x (o_Tool r) (o_Pocket r) (o_X r) (o_Y r) (o_Z r) (o_A r) (o_B r) (o_C r) (o_U r) (o_V r) (o_W r) (o_Diameter r) (o_I r) (o_J r) (o_Q r) (o_Comment r)
  | 2%nat, VInt x =>
      mkOffset (o_idn r) (o_Chk r) x (o_Pocket r) (o_X r) (o_Y r) (o_Z r) (o_A r) (o_B r) (o_C r) (o_U r) (o_V r) (o_W r) (o_Diameter r) (o_I r) (o_J r) (o_Q r) (o_Comment r)
  | 3%nat, VInt x =>
      mkOffset (o_idn r) (o_Chk r) (o_Tool r) x (o_X r) (o_Y r) (o_Z r) (o_A r) (o_B r) (o_C r) (o_U r) (o_V r) (o_W r) (o_Diameter r) (o_I r) (o_J r) (o_Q r) (o_Comment r)
  | 4%nat, VReal x =>
      mkOffset (o_idn r) (o_Chk r) (o_Tool r) (o_Pocket r) x (o_Y r) (o_Z r) (o_A r) (o_B r) (o_C r) (o_U r) (o_V r) (o_W r) (o_Diameter r) (o_I r) (o_J r) (o_Q r) (o_Comment r)
  | 5%nat, VReal x =>
      mkOffset (o_idn r) (o_Chk r) (o_Tool r) (o_Pocket r) (o_X r) x (o_Z r) (o_A r) (o_B r) (o_C r) (o_U r) (o_V r) (o_W r) (o_Diameter r) (o_I r) (o_J r) (o_Q r) (o_Comment r)
  | 6%nat, VReal x =>
      mkOffset (o_idn r) (o_Chk r) (o_Tool r) (o_Pocket r) (o_X r) (o_Y r) x (o_A r) (o_B r) (o_C r) (o_U r) (o_V r) (o_W r) (o_Diameter r) (o_I r) (o_J r) (o_Q r) (o_Comment r)
  | 7%nat, VReal x =>
      mkOffset (o_idn r) (o_Chk r) (o_Tool r) (o_Pocket r) (o_X r) (o_Y r) (o_Z r) x (o_B r) (o_C r) (o_U r) (o_V r) (o_W r) (o_Diameter r) (o_I r) (o_J r) (o_Q r) (o_Comment r)
  | 8%nat, VReal x =>
      mkOffset (o_idn r) (o_Chk r) (o_Tool r) (o_Pocket r) (o_X r) (o_Y r) (o_Z r) (o_A r) x (o_C r) (o_U r) (o_V r) (o_W r) (o_Diameter r) (o_I r) (o_J r) (o_Q r) (o_Comment r)
  | 9%nat, VReal x =>
      mkOffset (o_idn r) (o_Chk r) (o_Tool r) (o_Pocket r) (o_X r) (o_Y r) (o_Z r) (o_A r) (o_B r) x (o_U r) (o_V r) (o_W r) (o_Diameter r) (o_I r) (o_J r) (o_Q r) (o_Comment r)
  | 10%nat, VReal x =>
      mkOffset (o_idn r) (o_Chk r) (o_Tool r) (o_Pocket r) (o_X r) (o_Y r) (o_Z r) (o_A r) (o_B r) (o_C r) x (o_V r) (o_W r) (o_Diameter r) (o_I r) (o_J r) (o_Q r) (o_Comment r)
  | 11%nat, VReal x =>
      mkOffset (o_idn r) (o_Chk r) (o_Tool r) (o_Pocket r) (o_X r) (o_Y r) (o_Z r) (o_A r) (o_B r) (o_C r) (o_U r) x (o_W r) (o_Diameter r) (o_I r) (o_J r) (o_Q r) (o_Comment r)
  | 12%nat, VReal x =>
      mkOffset (o_idn r) (o_Chk r) (o_Tool r) (o_Pocket r) (o_X r) (o_Y r) (o_Z r) (o_A r) (o_B r) (o_C r) (o_U r) (o_V r) x (o_Diameter r) (o_I r) (o_J r) (o_Q r) (o_Comment r)
  | 13%nat, VReal x =>
      mkOffset (o_idn r) (o_Chk r) (o_Tool r) (o_Pocket r) (o_X r) (o_Y r) (o_Z r) (o_A r) (o_B r) (o_C r) (o_U r) (o_V r) (o_W r) x (o_I r) (o_J r) (o_Q r) (o_Comment r)
  | 14%nat, VReal x =>
      mkOffset (o_idn r) (o_Chk r) (o_Tool r) (o_Pocket r) (o_X r) (o_Y r) (o_Z r) (o_A r) (o_B r) (o_C r) (o_U r) (o_V r) (o_W r) (o_Diameter r) x (o_J r) (o_Q r) (o_Comment r)
  | 15%nat, VReal x =>
      mkOffset (o_idn r) (o_Chk r) (o_Tool r) (o_Pocket r) (o_X r) (o_Y r) (o_Z r) (o_A r) (o_B r) (o_C r) (o_U r) (o_V r) (o_W r) (o_Diameter r) (o_I r) x (o_Q r) (o_Comment r)
  | 16%nat, VInt x =>
      mkOffset (o_idn r) (o_Chk r) (o_Tool r) (o_Pocket r) (o_X r) (o_Y r) (o_Z r) (o_A r) (o_B r) (o_C r) (o_U r) (o_V r) (o_W r) (o_Diameter r) (o_I r) (o_J r) x (o_Comment r)
  | 17%nat, VText x =>
      mkOffset (o_idn r) (o_Chk r) (o_Tool r) (o_Pocket r) (o_X r) (o_Y r) (o_Z r) (o_A r) (o_B r) (o_C r) (o_U r) (o_V r) (o_W r) (o_Diameter r) (o_I r) (o_J r) (o_Q r) x
  | _, _ => r
  end.

(** ** The widget state *)

(** [Tool_Database.timer_dict]. *)
Record timer := mkTimer {
  running : bool;
  tool : Z;
  time : Z
}.

(** The state of a [Tool_Database] widget with its two models.  [autoinc] is
    the store's [AUTOINCREMENT] counter of table [offsets]: the largest [idn]
    it has handed out. *)
Record Tool_Database := mkDb {
  offset_model : list offset_rec;
  tool_model : list tool_rec;
  tool_list : list Z;
  autoinc : Z;
  metric_display : bool;
  current_row : option nat;
  timer_dict : timer;
  timer_tenths : Z;
  next_available : Z
}.

Definition with_offset_model (m : list offset_rec) (w : Tool_Database) : Tool_Database :=
  mkDb m (tool_model w) (tool_list w) (autoinc w) (metric_display w) (current_row w)
       (timer_dict w) (timer_tenths w) (next_available w).

Definition with_tool_model (m : list tool_rec) (w : Tool_Database) : Tool_Database :=
  mkDb (offset_model w) m (tool_list w) (autoinc w) (metric_display w) (current_row w)
       (timer_dict w) (timer_tenths w) (next_available w).

Definition with_tool_list (l : list Z) (w : Tool_Database) : Tool_Database :=
  mkDb (offset_model w) (tool_model w) l (autoinc w) (metric_display w) (current_row w)
       (timer_dict w) (timer_tenths w) (next_available w).

Definition with_autoinc (n : Z) (w : Tool_Database) : Tool_Database :=
  mkDb (offset_model w) (tool_model w) (tool_list w) n (metric_display w) (current_row w)
       (timer_dict w) (timer_tenths w) (next_available w).

Definition with_current_row (c : option nat) (w : Tool_Database) : Tool_Database :=
  mkDb (offset_model w) (tool_model w) (tool_list w) (autoinc w) (metric_display w) c
       (timer_dict w) (timer_tenths w) (next_available w).

Definition with_timer_dict (t : timer) (w : Tool_Database) : Tool_Database :=
  mkDb (offset_model w) (tool_model w) (tool_list w) (autoinc w) (metric_display w)
       (current_row w) t (timer_tenths w) (next_available w).

Definition with_timer_tenths (n : Z) (w : Tool_Database) : Tool_Database :=
  mkDb (offset_model w) (tool_model w) (tool_list w) (autoinc w) (metric_display w)
       (current_row w) (timer_dict w) n (next_available w).

Definition with_next_available (n : Z) (w : Tool_Database) : Tool_Database :=
  mkDb (offset_model w) (tool_model w) (tool_list w) (autoinc w) (metric_display w)
       (current_row w) (timer_dict w) (timer_tenths w) n.

(** The widget as [Tool_Database.__init__] leaves it on a new database file,
    before the first [update]. *)
Definition init : Tool_Database :=
  mkDb [] [] [] 0 true (Some 0%nat) (mkTimer false 0 0) 0 0.

(** ** MyOffsetModel *)

(** [x in l] on a list of ints. *)
Definition py_in (x : Z) (l : list Z) : bool := existsb (Z.eqb x) l.

(** What [data] returns for the display role: a float is formatted with
    three fraction digits (four when the display is not metric). *)
Definition display (metric : bool) (v : value) : value :=
  match v with
  | VReal x => VText (Py.format_fixed (if metric then 3 else 4) x)
  | _ => v
  end.

(** [MyOffsetModel.data(index, Qt.DisplayRole)] on the row of the index:
    column 1 answers only the background and check-state roles. *)
Definition MyOffsetModel_data (metric : bool) (r : offset_rec) (col : nat) : value :=
  if Nat.eqb col 1 then VNull else display metric (cell r col).

(** [MyOffsetModel.get_index]: the first row whose [Tool] cell equals [tno]. *)
Fixpoint get_index (tno : Z) (m : list offset_rec) : option nat :=
  match m with
  | [] => None
  | r :: rest => if Z.eqb (o_Tool r) tno then Some 0%nat else S <$> get_index tno rest
  end.

(** [MyOffsetModel.list_checked_tools]. *)
Fixpoint list_checked_tools (m : list offset_rec) : list Z :=
  match m with
  | [] => []
  | r :: rest =>
      if Z.eqb (o_Chk r) 1 then o_Tool r :: list_checked_tools rest
      else list_checked_tools rest
  end.

(** [MyOffsetModel.uncheck_all_tools]. *)
Definition uncheck_all_tools (m : list offset_rec) : list offset_rec :=
  map (fun r => if Z.eqb (o_Chk r) 1 then set_cell 1 (VInt 0) r else r) m.

(** The item data roles [setData] tells apart. *)
Inductive role := EditRole | CheckStateRole | OtherRole.

Definition Qt_Unchecked : value := VInt 0.
Definition Qt_Checked : value := VInt 2.

Definition value_eqb (a b : value) : bool :=
  match a, b with
  | VInt x, VInt y => Z.eqb x y
  | VReal x, VReal y => PrimFloat.eqb x y
  | VText x, VText y => String.eqb x y
  | VNull, VNull => true
  | _, _ => false
  end.

(** [index.isValid()] for [self.index(row, col)]. *)
Definition valid_index (row col : nat) (m : list offset_rec) : bool :=
  Nat.ltb row (length m) && Nat.ltb col (length offset_fields).

(** [QSqlTableModel.setData]: only the edit role writes. *)
Definition super_setData (row col : nat) (v : value) (ro : role)
    (m : list offset_rec) : list offset_rec :=
  match ro with
  | EditRole => if valid_index row col m then alter (set_cell col v) row m else m
  | _ => m
  end.

(** [MyOffsetModel.setData] (the model afterwards; the Boolean it returns is
    not kept). *)
Definition setData (row col : nat) (v : value) (ro : role)
    (m : list offset_rec) : list offset_rec :=
  if negb (valid_index row col m) then m
  else
    match ro with
    | CheckStateRole =>
        if Nat.eqb col 1 && value_eqb v Qt_Checked then
          super_setData row col (VInt 1) EditRole (uncheck_all_tools m)
        else if Nat.eqb col 1 && value_eqb v Qt_Unchecked then
          super_setData row col (VInt 0) EditRole m
        else super_setData row col v ro m
    | _ => super_setData row col v ro m
    end.

(** [MyOffsetModel.update_row]: the loop over [enumerate(offset_headers)]. *)
Definition update_row (row : nat) (data : tool_line) (m : list offset_rec) : list offset_rec :=
  fold_left
    (fun m ik =>
       match line_values data !! fst ik with
       | Some v => setData row (snd (snd ik)) v EditRole m
       | None => m
       end)
    (imap (fun i key => (i, key)) offset_headers) m.

(** ** MyToolModel *)

(** [MyToolModel.get_index]. *)
Fixpoint tool_get_index (tno : Z) (m : list tool_rec) : option nat :=
  match m with
  | [] => None
  | r :: rest => if Z.eqb (t_TOOL r) tno then Some 0%nat else S <$> tool_get_index tno rest
  end.

(** [MyToolModel.addrow]: [self.record()] with [idn], [TOOL] and [TIME]
    set, appended after the last row.  The record carries every column of
    the table, the unset ones null, and [insertRecord] writes all of them:
    the new row holds NULL there, not the defaults of the schema.  Nothing
    re-queries the model: the row stays last whatever the sort of the view.
    Column [idn] is the primary key: the store refuses a key it already has,
    which the source logs and passes over. *)
Definition tool_addrow (pkey tno : Z) (m : list tool_rec) : list tool_rec :=
  if existsb (fun t => Z.eqb (t_idn t) pkey) m then m
  else m ++ [mkTool pkey tno 0%float None None None None None None None].

Definition set_TIME (x : float) (r : tool_rec) : tool_rec :=
  mkTool (t_idn r) (t_TOOL r) x (t_RPM r) (t_CPT r) (t_LENGTH r) (t_FLUTES r)
         (t_FEED r) (t_MFG r) (t_ICON r).

(** ** Reconciliation *)

(** The [idn] the store gives the next row of [offsets]: one more than the
    largest it has handed out or holds. *)
Definition next_idn (w : Tool_Database) : Z :=
  1 + fold_right Z.max (autoinc w) (map o_idn (offset_model w)).

(** The row [MyOffsetModel.addrow] inserts for a line: the sixteen values of
    the line under the keys of [offset_headers], [idn] generated by the
    store, [Chk] left unset, which reads as not checked. *)
Definition new_offset_row (pkey : Z) (data : tool_line) : offset_rec :=
  mkOffset pkey 0 (l_Tool data) (l_Pocket data) (l_X data) (l_Y data) (l_Z data)
           (l_A data) (l_B data) (l_C data) (l_U data) (l_V data) (l_W data)
           (l_Diameter data) (l_I data) (l_J data) (l_Q data) (l_Comment data).

(** [MyOffsetModel.addrow]: a row at the end of the offsets model, then the
    paired row of the tools model under the same key. *)
Definition addrow (data : tool_line) (w : Tool_Database) : Tool_Database :=
  let pkey := next_idn w in
  let tno := l_Tool data in
  with_tool_model (tool_addrow pkey tno (tool_model w))
    (with_autoinc pkey
       (with_offset_model (offset_model w ++ [new_offset_row pkey data]) w)).

(** The order [select()] gives the rows of the tools model.  The tools view
    sorts its model on column [TOOL], ascending ([init_tool_view]), so the
    query carries that sort; rows with the same tool number come in the
    order of their key. *)
Definition tool_before (a b : tool_rec) : bool :=
  Z.ltb (t_TOOL a) (t_TOOL b)
  || (Z.eqb (t_TOOL a) (t_TOOL b) && Z.leb (t_idn a) (t_idn b)).

Fixpoint tool_insert (r : tool_rec) (m : list tool_rec) : list tool_rec :=
  match m with
  | [] => [r]
  | x :: rest => if tool_before r x then r :: m else x :: tool_insert r rest
  end.

(** [MyToolModel.select]: the rows of the table, in the order of the sort. *)
Definition tool_select (m : list tool_rec) : list tool_rec :=
  fold_right tool_insert [] m.

(** [MyOffsetModel.select]: [MyOffsetModel.sort] refuses column 1, the one
    column [init_offset_view] asks to sort on, so the query carries no sort
    and the rows come in the order of the table, which the list has. *)
Definition offset_select (m : list offset_rec) : list offset_rec := m.

(** [MyOffsetModel.delrow]: the row of [tno] is removed from the offsets
    model, then the row with the same row number from the tools model; each
    model is queried again after its removal. *)
Definition delrow (tno : Z) (w : Tool_Database) : Tool_Database :=
  match get_index tno (offset_model w) with
  | None => w
  | Some row =>
      with_tool_model (tool_select (delete row (tool_model w)))
        (with_offset_model (offset_select (delete row (offset_model w))) w)
  end.

(** The body of the first loop of [update], for one line of the tool array. *)
Definition update_line (w : Tool_Database) (line : tool_line) : Tool_Database :=
  let tno := l_Tool line in
  let w := with_tool_list (tool_list w ++ [tno]) w in
  match get_index tno (offset_model w) with
  | None => addrow line w
  | Some row => with_offset_model (update_row row line (offset_model w)) w
  end.

(** The tool numbers of the rows whose tool is not in [tool_list], in row
    order: the second loop of [update]. *)
Definition delete_list (w : Tool_Database) : list Z :=
  List.filter (fun tno => negb (py_in tno (tool_list w))) (map o_Tool (offset_model w)).

(** [MyOffsetModel.update] on the tool array [TOOL.GET_TOOL_MODELS()] hands
    over. *)
Definition update (tool_array : list tool_line) (w : Tool_Database) : Tool_Database :=
  let w := fold_left update_line tool_array (with_tool_list [] w) in
  let dl := delete_list w in
  let dl := if Nat.ltb 1 (length dl) then rev dl else dl in
  fold_left (fun w tno => delrow tno w) dl w.

(** ** The usage timer *)

Definition set_running (b : bool) (t : timer) : timer := mkTimer b (tool t) (time t).
Definition set_tool (n : Z) (t : timer) : timer := mkTimer (running t) n (time t).
Definition set_time (n : Z) (t : timer) : timer := mkTimer (running t) (tool t) n.

(** [MyToolModel.data(index, Qt.DisplayRole)] at column [TIME]. *)
Definition MyToolModel_data_TIME (metric : bool) (r : tool_rec) : string :=
  Py.format_fixed (if metric then 3 else 4) (t_TIME r).

(** How a method of the widget ends: it returns, or an exception leaves it;
    either way with the widget as the method has left it. *)
Inductive outcome :=
| Returned (w : Tool_Database)
| Raised (w : Tool_Database).

Definition state_of (o : outcome) : Tool_Database :=
  match o with
  | Returned w => w
  | Raised w => w
  end.

(** The value [start_tool_timer] seeds the timer with, from the row of the
    tools model at row number [row]: [int(pre_time * 60)].  [None] stands
    for an exception: the tools model has no such row, or the time shown
    does not convert to an int. *)
Definition seed_time (metric : bool) (row : nat) (m : list tool_rec) : option Z :=
  r ← m !! row;
  pre_time ← Py.float_of_string (MyToolModel_data_TIME metric r);
  Py.int_of_float (pre_time * 60)%float.

(** [Tool_Database.start_tool_timer]. *)
Definition start_tool_timer (w : Tool_Database) : outcome :=
  let tno := tool (timer_dict w) in
  if Z.eqb tno 0 then Returned w
  else
    let w := with_timer_dict (set_running true (timer_dict w)) w in
    match get_index tno (offset_model w) with
    | None => Returned w
    | Some row =>
        match seed_time (metric_display w) row (tool_model w) with
        | Some t => Returned (with_timer_dict (set_time t (timer_dict w)) w)
        | None => Raised w
        end
    end.

(** The string [stop_tool_timer] hands to [setData]: the elapsed time in
    minutes with three fraction digits.  [None] stands for the
    [OverflowError] of a quotient too large for a float. *)
Definition total_time (t : timer) : option string :=
  q ← Py.int_truediv (time t) 60;
  if is_infinity q then None else Some (Py.format_fixed 3 q).

(** [MyToolModel.setData] at column [TIME] with a string: the column is
    [REAL], so the store keeps the number the text denotes.  An index past
    the last row is invalid and nothing is written. *)
Definition tool_setData_TIME (row : nat) (s : string) (m : list tool_rec) : list tool_rec :=
  match Py.float_of_string s with
  | Some x => alter (set_TIME x) row m
  | None => m
  end.

(** [Tool_Database.stop_tool_timer]. *)
Definition stop_tool_timer (w : Tool_Database) : outcome :=
  if negb (running (timer_dict w)) then Returned w
  else
    let tno := tool (timer_dict w) in
    let w := with_timer_dict (set_running false (timer_dict w)) w in
    match get_index tno (offset_model w) with
    | None => Returned w
    | Some row =>
        match total_time (timer_dict w) with
        | Some s => Returned (with_tool_model (tool_setData_TIME row s (tool_model w)) w)
        | None => Raised w
        end
    end.

(** [Tool_Database.tool_changed]; [auto_running] is what
    [STATUS.is_auto_running()] answers. *)
Definition tool_changed (tl : Z) (auto_running : bool) (w : Tool_Database) : outcome :=
  let w := with_current_row
             (if Z.eqb tl 0 then None else get_index tl (offset_model w)) w in
  if Z.ltb 0 tl then
    let w := with_timer_dict (set_tool tl (timer_dict w)) w in
    if auto_running then start_tool_timer w else Returned w
  else Returned w.

(** [Tool_Database.interp_state]; [auto_mode] is what
    [STATUS.is_auto_mode()] answers. *)
Definition interp_state (state : bool) (auto_mode : bool) (w : Tool_Database) : outcome :=
  if negb auto_mode then Returned w
  else if state then start_tool_timer w
  else stop_tool_timer w.

(** [Tool_Database.tool_timer], the periodic heartbeat. *)
Definition tool_timer (w : Tool_Database) : Tool_Database :=
  let w := with_timer_tenths (timer_tenths w + 1) w in
  if Z.eqb (timer_tenths w) 10 then
    let w := with_timer_tenths 0 w in
    if running (timer_dict w) then
      with_timer_dict (set_time (time (timer_dict w) + 1) (timer_dict w)) w
    else w
  else w.

(** ** Lookups and export *)

(** The loop of [get_next_available]: [tno] runs over [candidates] and the
    loop breaks at the first one not in [tool_list]; [last] is the value the
    loop variable holds when the loop runs out. *)
Fixpoint scan_available (tl : list Z) (candidates : list Z) (last : Z) : Z :=
  match candidates with
  | [] => last
  | tno :: rest => if negb (py_in tno tl) then tno else scan_available tl rest tno
  end.

(** [Tool_Database.get_next_available]: the number returned and the widget
    afterwards. *)
Definition get_next_available (w : Tool_Database) : Z * Tool_Database :=
  let tno := scan_available (tool_list w) (seqZ 0 100) 0 in
  (tno, with_next_available tno w).

(** [Tool_Database.save_table]. *)
Definition save_table (w : Tool_Database) : list (list value) :=
  map (fun r =>
         map (fun hdr => MyOffsetModel_data (metric_display w) r (snd hdr)) offset_headers)
      (offset_model w).

(** [Tool_Database.get_checked_tools]. *)
Definition get_checked_tools (w : Tool_Database) : list Z :=
  list_checked_tools (offset_model w).

(** ** Events *)

(** What the widget is sent: the status callbacks wired in [hal_init], a
    click on a check box of the offsets view, the calls that end in [update]
    with the controller's tool array at that moment (the first of them in
    [MyOffsetModel.__init__]), and the sort [init_tool_view] installs on the
    tools view, which queries the tools model again. *)
Inductive event :=
| Periodic
| InterpIdle (auto_mode : bool)
| InterpRun (auto_mode : bool)
| ToolInSpindleChanged (tl : Z) (auto_running : bool)
| CheckClicked (row : nat) (state : value)
| Reload (tool_array : list tool_line)
| ToolViewSorted.

Definition handle (e : event) (w : Tool_Database) : outcome :=
  match e with
  | Periodic => Returned (tool_timer w)
  | InterpIdle am => interp_state false am w
  | InterpRun am => interp_state true am w
  | ToolInSpindleChanged tl ar => tool_changed tl ar w
  | CheckClicked row state =>
      Returned (with_offset_model (setData row 1 state CheckStateRole (offset_model w)) w)
  | Reload ta => Returned (update ta w)
  | ToolViewSorted => Returned (with_tool_model (tool_select (tool_model w)) w)
  end.

(** The states the widget reaches from [init], the widget over a new
    database before [MyOffsetModel.__init__] calls [update], whether a
    handler returned or raised. *)
Inductive reachable : Tool_Database -> Prop :=
| reach_init : reachable init
| reach_step e w : reachable w -> reachable (state_of (handle e w)).

(** ** More of the two models and of the widget *)

(** [MyOffsetModel.data(index, Qt.CheckStateRole)] at column 1, on the row
    of the index. *)
Definition MyOffsetModel_data_check (r : offset_rec) : value :=
  if Z.eqb (o_Chk r) 1 then Qt_Checked else Qt_Unchecked.

Definition set_ICON (s : string) (r : tool_rec) : tool_rec :=
  mkTool (t_idn r) (t_TOOL r) (t_TIME r) (t_RPM r) (t_CPT r) (t_LENGTH r) (t_FLUTES r)
         (t_FEED r) (t_MFG r) (Some s).

Definition set_TOOL (n : Z) (r : tool_rec) : tool_rec :=
  mkTool (t_idn r) n (t_TIME r) (t_RPM r) (t_CPT r) (t_LENGTH r) (t_FLUTES r)
         (t_FEED r) (t_MFG r) (t_ICON r).

(** [Tool_Database.set_tool_icon]: the icon goes to the first tools row with
    the tool number of the first checked offsets row; with no checked row, or
    no such tools row, nothing is written. *)
Definition set_tool_icon (icon : string) (w : Tool_Database) : Tool_Database :=
  match get_checked_tools w with
  | [] => w
  | tno :: _ =>
      match tool_get_index tno (tool_model w) with
      | None => w
      | Some row => with_tool_model (alter (set_ICON icon) row (tool_model w)) w
      end
  end.

(** [Tool_Database.get_tool_icon]: [None] for a tool without tools row and
    for an empty icon name; a null cell counts as no icon name. *)
Definition get_tool_icon (tl : Z) (w : Tool_Database) : option string :=
  match tool_get_index tl (tool_model w) with
  | None => None
  | Some row =>
      match tool_model w !! row with
      | Some r =>
          match t_ICON r with
          | Some icon => if String.eqb icon "" then None else Some icon
          | None => None
          end
      | None => None
      end
  end.

(** [Tool_Database.get_maxz]: the empty string for a tool without tools row,
    else what the tools model shows at column [LENGTH], which for a null
    cell is the null variant. *)
Definition get_maxz (tl : Z) (w : Tool_Database) : value :=
  match tool_get_index tl (tool_model w) with
  | None => VText ""
  | Some row =>
      match tool_model w !! row with
      | Some r =>
          match t_LENGTH r with
          | Some x => display (metric_display w) (VReal x)
          | None => VNull
          end
      | None => VNull
      end
  end.

(** [Tool_Database.get_tool_list]. *)
Definition get_tool_list (w : Tool_Database) : list Z := tool_list w.

(** [MyToolModel.update_tool_no]; [None] stands for the [TypeError] of
    [self.index(None, col)] when no tools row has the old number. *)
Definition update_tool_no (old_tno new_tno : Z) (m : list tool_rec) : option (list tool_rec) :=
  match tool_get_index old_tno m with
  | None => None
  | Some row => Some (alter (set_TOOL new_tno) row m)
  end.

(** The branch of [Tool_Database.callOffsetDialog] for field [Tool], on the
    offsets row [row], when the dialog is accepted with [ret_val]: the cell
    is set, the cached tool list is renamed, then the tools model.  The call
    of [data_changed] that follows hands the table to the controller and
    leaves the widget as it is. *)
Definition callOffsetDialog_Tool (row : nat) (ret_val : Z) (w : Tool_Database) : outcome :=
  match offset_model w !! row with
  | None => Raised w
  | Some r =>
      let preload := o_Tool r in
      let w := with_offset_model
                 (setData row 2 (VInt ret_val) EditRole (offset_model w)) w in
      let w := with_tool_list
                 (map (fun item => if Z.eqb item preload then ret_val else item)
                      (tool_list w)) w in
      match update_tool_no preload ret_val (tool_model w) with
      | Some m => Returned (with_tool_model m w)
      | None => Raised w
      end
  end.

(** ** Notions the statements below are written with *)

(** The row [update_row] leaves: [idn] and [Chk] kept, the sixteen other
    columns taken from the line. *)
Definition overwrite (data : tool_line) (r : offset_rec) : offset_rec :=
  mkOffset (o_idn r) (o_Chk r) (l_Tool data) (l_Pocket data) (l_X data) (l_Y data)
           (l_Z data) (l_A data) (l_B data) (l_C data) (l_U data) (l_V data) (l_W data)
           (l_Diameter data) (l_I data) (l_J data) (l_Q data) (l_Comment data).

(** The last line of the tool array that carries tool number [t]. *)
Fixpoint last_line (l : list tool_line) (t : Z) : option tool_line :=
  match l with
  | [] => None
  | x :: l' =>
      match last_line l' t with
      | Some y => Some y
      | None => if Z.eqb (l_Tool x) t then Some x else None
      end
  end.

(** [m] is settled for [l]: for every tool number of [l], the first row with
    that number already holds the values of the last line that carries it. *)
Definition settled (l : list tool_line) (m : list offset_rec) : Prop :=
  forall t d, last_line l t = Some d ->
    exists i r, get_index t m = Some i /\ m !! i = Some r /\ overwrite d r = r.

(** [m'] differs from [m] at most in the values that lines of [l] still
    overwrite: in first rows of tool numbers of [l], outside idn, Chk and
    Tool. *)
Definition pending (l : list tool_line) (m' m : list offset_rec) : Prop :=
  length m' = length m
  /\ forall i,
       m' !! i = m !! i
       \/ exists r r',
            m !! i = Some r /\ m' !! i = Some r'
            /\ o_idn r' = o_idn r /\ o_Chk r' = o_Chk r /\ o_Tool r' = o_Tool r
            /\ get_index (o_Tool r) m = Some i
            /\ is_Some (last_line l (o_Tool r)).

(** [delrow] on the offsets model alone. *)
Definition delrow_offsets (m : list offset_rec) (tno : Z) : list offset_rec :=
  match get_index tno m with
  | Some row => delete row m
  | None => m
  end.

(** A tools row belongs to an offsets row: same surrogate id, same tool
    number. *)
Definition paired (o : offset_rec) (t : tool_rec) : Prop :=
  t_idn t = o_idn o /\ t_TOOL t = o_Tool o.

(** The two models are aligned: row by row, the tools row belongs to the
    offsets row with the same row number, and no surrogate id repeats. *)
Definition aligned (w : Tool_Database) : Prop :=
  Forall2 paired (offset_model w) (tool_model w)
  /\ NoDup (map o_idn (offset_model w)).

(** What identifies a row of the offsets model across a reconciliation: its
    surrogate id, its check flag and its tool number. *)
Definition row_key (r : offset_rec) : Z * Z * Z := (o_idn r, o_Chk r, o_Tool r).

(** The line a row of the offsets model stands for: its sixteen columns from
    Tool to Comment. *)
Definition row_line (r : offset_rec) : tool_line :=
  mkLine (o_Tool r) (o_Pocket r) (o_X r) (o_Y r) (o_Z r) (o_A r) (o_B r) (o_C r)
         (o_U r) (o_V r) (o_W r) (o_Diameter r) (o_I r) (o_J r) (o_Q r) (o_Comment r).

(** The seed [start_tool_timer] computes from the time [stop_tool_timer]
    wrote for [t] elapsed seconds, on a display with [digits] fraction
    digits. *)
Definition reseed (digits : nat) (t : Z) : option Z :=
  s ← total_time (mkTimer true 0 t);
  x ← Py.float_of_string s;
  p ← Py.float_of_string (Py.format_fixed digits x);
  Py.int_of_float (p * 60)%float.

(** The keys of the two models are in order: the models have the same
    number of rows, no surrogate id repeats within a model, and none is
    above the counter of the store. *)
Definition keyed (w : Tool_Database) : Prop :=
  length (tool_model w) = length (offset_model w)
  /\ NoDup (map o_idn (offset_model w))
  /\ NoDup (map t_idn (tool_model w))
  /\ (forall i, i ∈ map o_idn (offset_model w) -> i <= autoinc w)
  /\ (forall i, i ∈ map t_idn (tool_model w) -> i <= autoinc w).

(** * Properties *)

(** ** Next available tool number *)

Lemma py_in_elem_of (x : Z) (l : list Z) : py_in x l = true <-> x ∈ l.
Proof.
  unfold py_in. rewrite existsb_exists. split.
  - intros (y & Hy & Heq). apply Z.eqb_eq in Heq. subst y. by apply list_elem_of_In.
  - intros Hx. exists x. split; [by apply list_elem_of_In | apply Z.eqb_refl].
Qed.

Lemma py_in_false (x : Z) (l : list Z) : py_in x l = false <-> x ∉ l.
Proof.
  rewrite <- py_in_elem_of. destruct (py_in x l); split; congruence.
Qed.

(** The scan over [a, a + n): when some candidate is absent it stops at the
    least absent one; when none is, it runs out on the last candidate. *)
Lemma scan_available_seqZ (tl : list Z) (n : nat) :
  forall a last,
    let r := scan_available tl (seqZ a (Z.of_nat n)) last in
    ((exists k, a <= k < a + Z.of_nat n /\ (k ∉ tl)) ->
       (a <= r < a + Z.of_nat n /\ (r ∉ tl) /\ forall k, a <= k < r -> k ∈ tl))
    /\ ((forall k, a <= k < a + Z.of_nat n -> k ∈ tl) ->
       r = if Nat.eqb n 0 then last else a + Z.of_nat n - 1).
Proof.
  induction n as [|n IH]; intros a last r.
  - subst r. simpl. split; [intros (k & Hk & _); lia | done].
  - subst r. rewrite seqZ_cons by lia. simpl scan_available.
    replace (Z.pred (Z.of_nat (S n))) with (Z.of_nat n) by lia.
    destruct (py_in a tl) eqn:Ha; simpl negb; cbv iota.
    + apply py_in_elem_of in Ha.
      destruct (IH (Z.succ a) a) as [IH1 IH2]. split.
      * intros (k & Hk & Hnk).
        destruct IH1 as (Hr & Hnr & Hlt).
        { exists k. split; [|done]. assert (k <> a) by (intros ->; done). lia. }
        split; [lia|]. split; [done|].
        intros j Hj. destruct (decide (j = a)) as [->|]; [done|]. apply Hlt. lia.
      * intros Hall. rewrite IH2 by (intros k Hk; apply Hall; lia).
        destruct n; simpl; lia.
    + apply py_in_false in Ha. split.
      * intros _. split; [lia|]. split; [done|]. intros k Hk. lia.
      * intros Hall. exfalso. apply Ha, Hall. lia.
Qed.

Lemma scan_available_100 (tl : list Z) :
  let r := scan_available tl (seqZ 0 100) 0 in
  ((exists k, 0 <= k < 100 /\ (k ∉ tl)) ->
     (0 <= r < 100 /\ (r ∉ tl) /\ forall k, 0 <= k < r -> k ∈ tl))
  /\ ((forall k, 0 <= k < 100 -> k ∈ tl) -> r = 99).
Proof.
  pose proof (scan_available_seqZ tl 100 0 0) as H.
  change (Z.of_nat 100) with 100 in H. exact H.
Qed.

(** C7.  When some integer of 0..99 is not in the known tool numbers,
    [get_next_available] returns the least such integer: it lies in 0..99,
    is not in the list, and every smaller integer from 0 on is in it; it
    also records that number in [next_available].  On the tools 0, 1, 2, 4
    this is 3 (the witness below). *)
Theorem get_next_available_least_absent (w : Tool_Database) :
  (exists n, 0 <= n < 100 /\ (n ∉ tool_list w)) ->
  let r := fst (get_next_available w) in
  0 <= r < 100 /\ (r ∉ tool_list w) /\ (forall k, 0 <= k < r -> k ∈ tool_list w)
  /\ next_available (snd (get_next_available w)) = r.
Proof.
  intros Hex r.
  destruct (scan_available_100 (tool_list w)) as [H _].
  destruct H as (H1 & H2 & H3); [exact Hex|].
  subst r. unfold get_next_available. cbn [fst snd].
  repeat split; try done; lia.
Qed.

Lemma get_next_available_least_absent_witness :
  (exists n, 0 <= n < 100 /\ (n ∉ tool_list (with_tool_list [0; 1; 2; 4] init)))
  /\ fst (get_next_available (with_tool_list [0; 1; 2; 4] init)) = 3
  /\ (3 ∉ [0; 1; 2; 4]).
Proof.
  assert (Hex : exists n, 0 <= n < 100 /\ (n ∉ tool_list (with_tool_list [0; 1; 2; 4] init))).
  { exists 3. split; [lia|]. apply py_in_false. reflexivity. }
  split; [exact Hex|].
  split; [reflexivity|].
  exact (proj1 (proj2 (get_next_available_least_absent _ Hex))).
Defined.

(** C8 as stated fails: with every number of 0..99 known, the loop runs
    out and 99, a known number, is returned. *)
Lemma get_next_available_full_returns_known :
  ~ (forall w : Tool_Database, fst (get_next_available w) ∉ tool_list w).
Proof.
  intros H. apply (H (with_tool_list (seqZ 0 100) init)).
  apply py_in_elem_of. vm_compute. reflexivity.
Qed.

(** C8, amended.  When some integer of 0..99 is not in the known tool
    numbers, the number [get_next_available] returns is not a known one. *)
Theorem get_next_available_not_known (w : Tool_Database) :
  (exists n, 0 <= n < 100 /\ (n ∉ tool_list w)) ->
  fst (get_next_available w) ∉ tool_list w.
Proof.
  intros Hex.
  destruct (scan_available_100 (tool_list w)) as [H _].
  destruct H as (_ & H2 & _); [exact Hex|]. exact H2.
Qed.

Lemma get_next_available_not_known_witness :
  (exists n, 0 <= n < 100 /\ (n ∉ tool_list (with_tool_list [0; 1; 2; 3] init)))
  /\ (fst (get_next_available (with_tool_list [0; 1; 2; 3] init)) ∉ [0; 1; 2; 3]).
Proof.
  assert (Hex : exists n, 0 <= n < 100 /\ (n ∉ tool_list (with_tool_list [0; 1; 2; 3] init))).
  { exists 4. split; [lia|]. apply py_in_false. reflexivity. }
  split; [exact Hex|].
  exact (get_next_available_not_known _ Hex).
Defined.

(** ** Exported table *)

(** C9 as stated fails: an exported row has sixteen values, not one per
    column of the schema. *)
Lemma save_table_row_not_schema_wide :
  ~ (forall (w : Tool_Database) (line : list value),
       line ∈ save_table w -> length line = length offset_fields).
Proof.
  intros H.
  pose (r := mkOffset 1 0 1 1 0 0 0 0 0 0 0 0 0 0 0 0 0 "New tool").
  pose (w := with_offset_model [r] init).
  specialize (H w (map (fun hdr => MyOffsetModel_data true r (snd hdr)) offset_headers)).
  discriminate H. apply list_elem_of_here.
Qed.

(** C9, amended.  [save_table] returns one row per row of the offsets model,
    in row order; each is the sequence of the display values of the sixteen
    columns Tool, Pocket, X, Y, Z, A, B, C, U, V, W, Diameter, I, J, Q,
    Comment in that order (the keys of [offset_headers]); the columns idn
    and Chk are not exported. *)
Theorem save_table_rows (w : Tool_Database) :
  map fst offset_headers
  = ["Tool"; "Pocket"; "X"; "Y"; "Z"; "A"; "B"; "C"; "U"; "V"; "W";
     "Diameter"; "I"; "J"; "Q"; "Comment"]
  /\ length (save_table w) = length (offset_model w)
  /\ save_table w
     = map (fun r =>
              map (display (metric_display w))
                [VInt (o_Tool r); VInt (o_Pocket r); VReal (o_X r); VReal (o_Y r);
                 VReal (o_Z r); VReal (o_A r); VReal (o_B r); VReal (o_C r);
                 VReal (o_U r); VReal (o_V r); VReal (o_W r); VReal (o_Diameter r);
                 VReal (o_I r); VReal (o_J r); VInt (o_Q r); VText (o_Comment r)])
         (offset_model w).
Proof.
  split; [reflexivity|]. split.
  - unfold save_table. by rewrite length_map.
  - unfold save_table. apply map_ext. intros r. reflexivity.
Qed.

(** ** Rows overwritten in place *)

Lemma alter_ge {A} (f : A -> A) (l : list A) (i : nat) :
  (length l <= i)%nat -> alter f i l = l.
Proof.
  revert i. induction l as [|x l IH]; intros [|i] Hi; simpl in *; try done; try lia.
  f_equal. apply IH. lia.
Qed.

Lemma set_cell_outside (col : nat) (v : value) (r : offset_rec) :
  (18 <= col)%nat -> set_cell col v r = r.
Proof.
  intros H. do 18 (destruct col as [|col]; [lia|]). reflexivity.
Qed.

(** With the edit role [setData] is the in-place write of one cell. *)
Lemma setData_edit (row col : nat) (v : value) (m : list offset_rec) :
  setData row col v EditRole m = alter (set_cell col v) row m.
Proof.
  unfold setData, super_setData.
  destruct (valid_index row col m) eqn:Hv; [reflexivity|]. simpl.
  unfold valid_index in Hv. apply andb_false_iff in Hv.
  destruct Hv as [Hv|Hv]; apply Nat.ltb_ge in Hv.
  - symmetry. by apply alter_ge.
  - symmetry. apply list_alter_id. intros r. apply set_cell_outside.
    exact Hv.
Qed.

Lemma fold_left_ext {A B} (f g : A -> B -> A) (l : list B) (a : A) :
  (forall a b, f a b = g a b) -> fold_left f l a = fold_left g l a.
Proof.
  intros H. revert a. induction l as [|x l IH]; intros a; simpl; [done|].
  by rewrite H, IH.
Qed.

Lemma fold_left_alter {A B} (f : B -> A -> A) (row : nat) (l : list B) (m : list A) :
  fold_left (fun m x => alter (f x) row m) l m
  = alter (fun r => fold_left (fun r x => f x r) l r) row m.
Proof.
  revert m. induction l as [|x l IH]; intros m; simpl.
  - symmetry. by apply list_alter_id.
  - rewrite IH, list_alter_alter_eq. reflexivity.
Qed.

Lemma update_row_alter (row : nat) (data : tool_line) (m : list offset_rec) :
  update_row row data m = alter (overwrite data) row m.
Proof.
  unfold update_row.
  rewrite (fold_left_ext _
             (fun m ik =>
                alter (fun r => match line_values data !! fst ik with
                                | Some v => set_cell (snd (snd ik)) v r
                                | None => r
                                end) row m)).
  - rewrite fold_left_alter. apply list_alter_ext; [|done].
    intros r _. destruct r, data. vm_compute. reflexivity.
  - intros m' ik. destruct (line_values data !! fst ik).
    + apply setData_edit.
    + symmetry. by apply list_alter_id.
Qed.

Lemma get_index_Some (tno : Z) (m : list offset_rec) (row : nat) :
  get_index tno m = Some row ->
  exists r, m !! row = Some r /\ o_Tool r = tno
            /\ forall j r', (j < row)%nat -> m !! j = Some r' -> o_Tool r' <> tno.
Proof.
  revert row. induction m as [|x m IH]; intros row H; simpl in H; [done|].
  destruct (Z.eqb_spec (o_Tool x) tno) as [Heq|Hne].
  - inversion H; subst row. exists x. repeat split; [done|]. intros j r' Hj. lia.
  - destruct (get_index tno m) as [i|] eqn:Hi; simpl in H; [|done].
    inversion H; subst row. destruct (IH i eq_refl) as (r & Hr & Ht & Hbefore).
    exists r. repeat split; [done..|].
    intros [|j] r' Hj Hl; simpl in Hl.
    + by inversion Hl; subst.
    + apply (Hbefore j); [lia | done].
Qed.

Lemma get_index_None (tno : Z) (m : list offset_rec) :
  get_index tno m = None <-> tno ∉ map o_Tool m.
Proof.
  induction m as [|x m IH]; simpl.
  - split; [intros _; apply not_elem_of_nil | done].
  - rewrite not_elem_of_cons. destruct (Z.eqb_spec (o_Tool x) tno) as [Heq|Hne].
    + split; [done | intros [? _]; congruence].
    + destruct (get_index tno m); simpl.
      * split; [done|]. intros [_ H]. by apply IH in H.
      * split; [|done]. intros _. split; [congruence | by apply IH].
Qed.

(** C6 as stated fails: the line has no value for the check box, and a row
    that was checked stays checked, so what reconciliation leaves in the row
    still depends on what the row held. *)
Lemma update_keeps_check_flag :
  ~ (forall (line : tool_line) (r r' : offset_rec),
       o_idn r = o_idn r' -> o_Tool r = l_Tool line -> o_Tool r' = l_Tool line ->
       offset_model (update [line] (with_offset_model [r] init))
       = offset_model (update [line] (with_offset_model [r'] init))).
Proof.
  intros H.
  specialize (H (mkLine 1 1 0 0 0 0 0 0 0 0 0 0 0 0 0 "drill")
                (mkOffset 1 1 1 1 0 0 0 0 0 0 0 0 0 0 0 0 0 "New tool")
                (mkOffset 1 0 1 1 0 0 0 0 0 0 0 0 0 0 0 0 0 "New tool")
                eq_refl eq_refl eq_refl).
  vm_compute in H. discriminate H.
Qed.

(** C6, amended.  For a line whose tool number is already in the offsets
    model, the loop body of [update] overwrites, in the first row with that
    tool number, the sixteen columns from Tool to Comment with the sixteen
    values of the line, position by position; the row keeps its idn and its
    Chk, every other row and the tools model are left as they were, and no
    row is added. *)
Theorem update_line_overwrites_in_place (w : Tool_Database) (line : tool_line) (row : nat) :
  get_index (l_Tool line) (offset_model w) = Some row ->
  exists r r',
    offset_model w !! row = Some r
    /\ offset_model (update_line w line) !! row = Some r'
    /\ o_idn r' = o_idn r
    /\ o_Chk r' = o_Chk r
    /\ (forall i key col,
          offset_headers !! i = Some (key, col) ->
          line_values line !! i = Some (cell r' col))
    /\ (forall j, j <> row ->
          offset_model (update_line w line) !! j = offset_model w !! j)
    /\ length (offset_model (update_line w line)) = length (offset_model w)
    /\ tool_model (update_line w line) = tool_model w
    /\ autoinc (update_line w line) = autoinc w.
Proof.
  intros Hidx.
  destruct (get_index_Some _ _ _ Hidx) as (r & Hr & _).
  exists r, (overwrite line r).
  unfold update_line. cbn [offset_model with_tool_list]. rewrite Hidx.
  cbn [offset_model tool_model autoinc with_offset_model].
  rewrite update_row_alter.
  split; [done|]. split; [by rewrite list_lookup_alter_eq, Hr|].
  split; [done|]. split; [done|]. split.
  - intros i key col H.
    change offset_headers with
      [("Tool", 2); ("Pocket", 3); ("X", 4); ("Y", 5); ("Z", 6); ("A", 7); ("B", 8);
       ("C", 9); ("U", 10); ("V", 11); ("W", 12); ("Diameter", 13); ("I", 14);
       ("J", 15); ("Q", 16); ("Comment", 17)]%nat in H.
    do 16 (destruct i as [|i]; [inversion H; reflexivity|]). inversion H.
  - split; [intros j Hj; by rewrite list_lookup_alter_ne|].
    split; [by rewrite length_alter | done].
Qed.

Lemma update_line_overwrites_in_place_witness :
  let line := mkLine 7 3 0 0 0 0 0 0 0 0 0 0 0 0 0 "end mill" in
  let w := with_offset_model
             [mkOffset 1 0 4 4 0 0 0 0 0 0 0 0 0 0 0 0 0 "New tool";
              mkOffset 2 1 7 7 0 0 0 0 0 0 0 0 0 0 0 0 0 "New tool"] init in
  get_index (l_Tool line) (offset_model w) = Some 1%nat
  /\ exists r r',
       offset_model w !! 1%nat = Some r
       /\ offset_model (update_line w line) !! 1%nat = Some r'
       /\ o_idn r' = o_idn r
       /\ o_Chk r' = o_Chk r
       /\ (forall i key col,
             offset_headers !! i = Some (key, col) ->
             line_values line !! i = Some (cell r' col))
       /\ (forall j, j <> 1%nat ->
             offset_model (update_line w line) !! j = offset_model w !! j)
       /\ length (offset_model (update_line w line)) = length (offset_model w)
       /\ tool_model (update_line w line) = tool_model w
       /\ autoinc (update_line w line) = autoinc w.
Proof.
  intros line w. split; [reflexivity|].
  exact (update_line_overwrites_in_place w line 1 eq_refl).
Defined.

(** ** The usage timer *)

(** [n] heartbeats from a phase within 0..9: the phase advances modulo ten
    and, while the timer runs, one second is added for every time the phase
    wraps. *)
Lemma tool_timer_iter (n : nat) (w : Tool_Database) :
  0 <= timer_tenths w < 10 ->
  Nat.iter n tool_timer w
  = with_timer_dict
      (if running (timer_dict w)
       then set_time (time (timer_dict w) + (timer_tenths w + Z.of_nat n) / 10)
                     (timer_dict w)
       else timer_dict w)
      (with_timer_tenths ((timer_tenths w + Z.of_nat n) mod 10) w).
Proof.
  intros Hph. induction n as [|n IH].
  - destruct w as [om tm tl ai md cr [run tno t] tt nx]. simpl in *.
    unfold with_timer_dict, with_timer_tenths, set_time; simpl.
    rewrite !Z.add_0_r, Z.div_small, Z.mod_small, Z.add_0_r by lia.
    by destruct run.
  - rewrite Nat.iter_succ, IH. clear IH.
    rewrite Nat2Z.inj_succ.
    destruct w as [om tm tl ai md cr [run tno t] tt nx].
    cbn [timer_tenths timer_dict running time] in *.
    set (a := tt + Z.of_nat n).
    replace (tt + Z.succ (Z.of_nat n)) with (a + 1) by (subst a; lia).
    assert (Ha : 0 <= a) by (subst a; lia).
    clearbody a.
    pose proof (Z.mod_pos_bound a 10 ltac:(lia)) as Hm.
    pose proof (Z.div_mod a 10 ltac:(lia)) as Hd.
    unfold tool_timer.
    cbn [timer_tenths timer_dict running time with_timer_tenths with_timer_dict].
    destruct (Z.eqb_spec (a mod 10 + 1) 10) as [Heq|Hne].
    + assert ((a + 1) / 10 = a / 10 + 1) as -> by (symmetry; apply Z.div_unique with 0; lia).
      assert ((a + 1) mod 10 = 0) as -> by (symmetry; apply Z.mod_unique with (a / 10 + 1); lia).
      destruct run; cbn; [|reflexivity]. rewrite Z.add_assoc. reflexivity.
    + assert ((a + 1) / 10 = a / 10) as ->
        by (symmetry; apply Z.div_unique with (a mod 10 + 1); lia).
      assert ((a + 1) mod 10 = a mod 10 + 1) as ->
        by (symmetry; apply Z.mod_unique with (a / 10); lia).
      destruct run; reflexivity.
Qed.

(** C10.  When [start_tool_timer] is called with a nonzero active tool that
    has no row in the offsets model, it returns with [running] set and the
    elapsed time as it was, whatever tool that time belonged to; nothing else
    changes; and from then on the heartbeats count onto that value: after [n]
    of them, from a phase within 0..9, the time is the old one plus one
    second for each wrap of the phase. *)
Theorem start_tool_timer_without_row_keeps_time (w : Tool_Database) :
  tool (timer_dict w) <> 0 ->
  get_index (tool (timer_dict w)) (offset_model w) = None ->
  start_tool_timer w
  = Returned (with_timer_dict (set_running true (timer_dict w)) w)
  /\ running (timer_dict (state_of (start_tool_timer w))) = true
  /\ time (timer_dict (state_of (start_tool_timer w))) = time (timer_dict w)
  /\ forall n : nat,
       0 <= timer_tenths w < 10 ->
       time (timer_dict (Nat.iter n tool_timer (state_of (start_tool_timer w))))
       = time (timer_dict w) + (timer_tenths w + Z.of_nat n) / 10.
Proof.
  intros Hne Hnone.
  assert (Hs : start_tool_timer w
               = Returned (with_timer_dict (set_running true (timer_dict w)) w)).
  { unfold start_tool_timer. destruct (Z.eqb_spec (tool (timer_dict w)) 0); [done|].
    cbn [offset_model with_timer_dict timer_dict set_running tool]. by rewrite Hnone. }
  rewrite Hs. cbn [state_of]. repeat split.
  intros n Hph. rewrite tool_timer_iter by exact Hph. reflexivity.
Qed.

Lemma start_tool_timer_without_row_keeps_time_witness :
  let w := with_timer_tenths 4 (with_timer_dict (mkTimer false 6 300) init) in
  tool (timer_dict w) <> 0
  /\ get_index (tool (timer_dict w)) (offset_model w) = None
  /\ running (timer_dict (state_of (start_tool_timer w))) = true
  /\ time (timer_dict (Nat.iter 120 tool_timer (state_of (start_tool_timer w)))) = 312.
Proof.
  intros w.
  assert (H1 : tool (timer_dict w) <> 0) by discriminate.
  assert (H2 : get_index (tool (timer_dict w)) (offset_model w) = None) by reflexivity.
  split; [exact H1|]. split; [exact H2|].
  destruct (start_tool_timer_without_row_keeps_time w H1 H2) as (_ & Hrun & _ & Hticks).
  split; [exact Hrun|].
  rewrite (Hticks 120%nat); [reflexivity | simpl; lia].
Defined.

Lemma map_alter_same {A B} (f : A -> B) (g : A -> A) (i : nat) (m : list A) :
  (forall x, f (g x) = f x) -> map f (alter g i m) = map f m.
Proof.
  intros H. revert i. induction m as [|x m IH]; intros [|i]; simpl; try done.
  - by rewrite H.
  - f_equal. apply IH.
Qed.

Lemma tool_get_index_Some (tno : Z) (m : list tool_rec) (row : nat) :
  tool_get_index tno m = Some row ->
  exists r, m !! row = Some r /\ t_TOOL r = tno.
Proof.
  revert row. induction m as [|x m IH]; intros row H; simpl in H; [done|].
  destruct (Z.eqb_spec (t_TOOL x) tno) as [Heq|Hne].
  - inversion H; subst row. by exists x.
  - destruct (tool_get_index tno m) as [i|] eqn:Hi; simpl in H; [|done].
    inversion H; subst row. apply (IH i eq_refl).
Qed.

Lemma tool_get_index_map (tno : Z) (m m' : list tool_rec) :
  map t_TOOL m = map t_TOOL m' -> tool_get_index tno m = tool_get_index tno m'.
Proof.
  revert m'. induction m as [|x m IH]; intros [|x' m'] H; simpl in H; try done.
  inversion H as [[Hx Hm]]. simpl. rewrite Hx. by rewrite (IH m' Hm).
Qed.

Lemma total_time_set_running (b : bool) (t : timer) :
  total_time (set_running b t) = total_time t.
Proof. reflexivity. Qed.

(** C5 as stated fails: a tool change to tool 0 while the timer runs does not
    stop it.  The running state is reached by loading tool 1 and changing to
    it while the controller runs a program. *)
Lemma tool_change_to_zero_keeps_running :
  ~ (forall (w : Tool_Database) (auto_running : bool),
       reachable w -> running (timer_dict w) = true ->
       running (timer_dict (state_of (tool_changed 0 auto_running w))) = false).
Proof.
  intros H.
  pose (line := mkLine 1 1 0 0 0 0 0 0 0 0 0 0 0 0 0 "New tool").
  pose (w := state_of (handle (ToolInSpindleChanged 1 true)
                         (state_of (handle (Reload [line]) init)))).
  specialize (H w true).
  assert (Hr : reachable w) by (do 2 apply reach_step; apply reach_init).
  specialize (H Hr eq_refl). vm_compute in H. discriminate H.
Qed.

(** C5, amended.  While the timer runs, the interpreter becoming idle with
    the controller in auto mode stops it: [running] is cleared in every
    case.  When the active tool has an offsets row and its tools row has the
    same row number, the elapsed time is committed to that tools row: its
    [TIME] becomes the number denoted by the three-decimal text of the
    elapsed seconds divided by 60, the row still carries the active tool's
    number, no other tools row and no offsets row changes.  Outside auto
    mode the idle event changes nothing, and a tool change to tool 0 only
    clears [current_row]: the timer keeps running. *)
Theorem running_to_idle_transitions (w : Tool_Database) :
  running (timer_dict w) = true ->
  running (timer_dict (state_of (interp_state false true w))) = false
  /\ (forall (row : nat) (q x : float),
        get_index (tool (timer_dict w)) (offset_model w) = Some row ->
        tool_get_index (tool (timer_dict w)) (tool_model w) = Some row ->
        Py.int_truediv (time (timer_dict w)) 60 = Some q ->
        is_infinity q = false ->
        Py.float_of_string (Py.format_fixed 3 q) = Some x ->
        exists w' r,
          interp_state false true w = Returned w'
          /\ running (timer_dict w') = false
          /\ tool (timer_dict w') = tool (timer_dict w)
          /\ tool_model w !! row = Some r
          /\ t_TOOL r = tool (timer_dict w)
          /\ tool_model w' !! row = Some (set_TIME x r)
          /\ tool_get_index (tool (timer_dict w)) (tool_model w') = Some row
          /\ (forall j, j <> row -> tool_model w' !! j = tool_model w !! j)
          /\ offset_model w' = offset_model w)
  /\ interp_state false false w = Returned w
  /\ (forall auto_running,
        tool_changed 0 auto_running w = Returned (with_current_row None w))
  /\ (forall auto_running,
        running (timer_dict (state_of (tool_changed 0 auto_running w))) = true).
Proof.
  intros Hrun. split; [|split; [|split; [|split]]].
  - unfold interp_state, stop_tool_timer. cbn [negb]. rewrite Hrun. cbn [negb].
    cbn [offset_model with_timer_dict timer_dict tool_model set_running tool].
    destruct (get_index (tool (timer_dict w)) (offset_model w)); [|done].
    by destruct (total_time _).
  - intros row q x Hidx Htidx Hq Hinf Hx.
    destruct (tool_get_index_Some _ _ _ Htidx) as (r & Hr & Ht).
    exists (with_tool_model (alter (set_TIME x) row (tool_model w))
              (with_timer_dict (set_running false (timer_dict w)) w)), r.
    assert (Htools : map t_TOOL (alter (set_TIME x) row (tool_model w))
                     = map t_TOOL (tool_model w)).
    { apply map_alter_same. intros y. reflexivity. }
    split.
    { unfold interp_state, stop_tool_timer. cbn [negb]. rewrite Hrun. cbn [negb].
      cbn [offset_model with_timer_dict timer_dict tool_model set_running tool].
      rewrite Hidx, total_time_set_running. unfold total_time. rewrite Hq.
      cbn [mbind option_bind]. rewrite Hinf.
      unfold tool_setData_TIME. rewrite Hx. reflexivity. }
    cbn [timer_dict tool_model offset_model with_tool_model with_timer_dict
         set_running running tool].
    split; [reflexivity|]. split; [reflexivity|]. split; [exact Hr|].
    split; [exact Ht|]. split; [by rewrite list_lookup_alter_eq, Hr|].
    split; [by rewrite (tool_get_index_map _ _ _ Htools)|].
    split; [|reflexivity].
    intros j Hj. by rewrite list_lookup_alter_ne.
  - reflexivity.
  - intros ar. reflexivity.
  - intros ar. exact Hrun.
Qed.

Lemma running_to_idle_transitions_witness :
  let w := with_timer_dict (mkTimer true 3 312)
             (mkDb [mkOffset 1 0 1 1 0 0 0 0 0 0 0 0 0 0 0 0 0 "New tool";
                    mkOffset 2 0 3 3 0 0 0 0 0 0 0 0 0 0 0 0 0 "New tool"]
                   [mkTool 1 1 7 None None None None None None None;
                    mkTool 2 3 5 None None None None None None None]
                   [1; 3] 2 true (Some 1%nat) (mkTimer false 0 0) 0 0) in
  running (timer_dict w) = true
  /\ running (timer_dict (state_of (interp_state false true w))) = false
  /\ (exists w',
        interp_state false true w = Returned w'
        /\ tool_model w' !! 1%nat
           = Some (mkTool 2 3 0x1.4cccccccccccdp+2 None None None None None None None)
        /\ tool_model w' !! 0%nat = tool_model w !! 0%nat)
  /\ map (fun t => (t_TOOL t, MyToolModel_data_TIME true t))
       (tool_model (state_of (interp_state false true w)))
     = [(1, "7.000"); (3, "5.200")]
  /\ running (timer_dict (state_of (tool_changed 0 true w))) = true.
Proof.
  intros w.
  assert (H : running (timer_dict w) = true) by reflexivity.
  split; [exact H|].
  destruct (running_to_idle_transitions w H) as (H1 & Hc & _ & _ & H2).
  split; [exact H1|]. split; [|split; [vm_compute; reflexivity | exact (H2 true)]].
  destruct (Hc 1%nat 0x1.4cccccccccccdp+2%float 0x1.4cccccccccccdp+2%float)
    as (w' & r & Hw' & _ & _ & Hr & _ & Hrow & _ & Hother & _);
    [reflexivity | reflexivity | vm_compute; reflexivity | reflexivity
    | vm_compute; reflexivity |].
  exists w'. split; [exact Hw'|]. split; [|apply Hother; discriminate].
  rewrite Hrow. f_equal. vm_compute in Hr. inversion Hr. reflexivity.
Defined.

(** The round trip of the timer over the tools row the handlers use.  The
    active tool is nonzero and has row number [row] in the offsets model;
    the tools row with that row number stores a time of 5 minutes; the
    heartbeat phase is within 0..9.  Then [start_tool_timer] returns with
    the timer running and seeded with 300 seconds; 120 heartbeats later the
    timer holds 312 seconds; [stop_tool_timer] then returns, having handed
    the string "5.200" to [setData], after which that tools row stores the
    binary64 number nearest to 5.2, displayed as "5.200", the other rows are
    untouched and the timer is stopped. *)
Theorem timer_round_trip (w : Tool_Database) (row : nat) (r : tool_rec) :
  tool (timer_dict w) <> 0 ->
  get_index (tool (timer_dict w)) (offset_model w) = Some row ->
  tool_model w !! row = Some r ->
  t_TIME r = 5%float ->
  0 <= timer_tenths w < 10 ->
  exists w1 w2,
    start_tool_timer w = Returned w1
    /\ running (timer_dict w1) = true
    /\ time (timer_dict w1) = 300
    /\ time (timer_dict (Nat.iter 120 tool_timer w1)) = 312
    /\ total_time (timer_dict (Nat.iter 120 tool_timer w1)) = Some "5.200"
    /\ stop_tool_timer (Nat.iter 120 tool_timer w1) = Returned w2
    /\ running (timer_dict w2) = false
    /\ tool_model w2 = alter (set_TIME 0x1.4cccccccccccdp+2%float) row (tool_model w)
    /\ tool_model w2 !! row = Some (set_TIME 0x1.4cccccccccccdp+2%float r)
    /\ Py.float_of_string "5.200" = Some 0x1.4cccccccccccdp+2%float
    /\ Py.format_fixed 3 0x1.4cccccccccccdp+2%float = "5.200".
Proof.
  intros Hne Hidx Hrow Htime Hph.
  assert (Hseed : seed_time (metric_display w) row (tool_model w) = Some 300).
  { unfold seed_time, MyToolModel_data_TIME. rewrite Hrow. cbn [mbind option_bind].
    rewrite Htime. destruct (metric_display w); vm_compute; reflexivity. }
  set (w1 := with_timer_dict (set_time 300 (set_running true (timer_dict w))) w).
  assert (Hstart : start_tool_timer w = Returned w1).
  { unfold start_tool_timer. destruct (Z.eqb_spec (tool (timer_dict w)) 0); [done|].
    cbn [offset_model with_timer_dict timer_dict set_running tool tool_model
         metric_display].
    rewrite Hidx, Hseed. reflexivity. }
  assert (Hticks : Nat.iter 120 tool_timer w1
                   = with_timer_dict (mkTimer true (tool (timer_dict w)) 312)
                       (with_timer_tenths ((timer_tenths w + 120) mod 10) w)).
  { rewrite tool_timer_iter by exact Hph. subst w1.
    cbn [running timer_dict with_timer_dict set_time set_running time tool
         timer_tenths].
    assert ((timer_tenths w + Z.of_nat 120) / 10 = 12) as ->.
    { change (Z.of_nat 120) with 120. symmetry.
      apply Z.div_unique with (timer_tenths w); lia. }
    reflexivity. }
  assert (Hparse : Py.float_of_string "5.200" = Some 0x1.4cccccccccccdp+2%float)
    by (vm_compute; reflexivity).
  assert (Htotal : total_time (mkTimer true (tool (timer_dict w)) 312) = Some "5.200")
    by (vm_compute; reflexivity).
  eexists w1, _. rewrite Hticks.
  split; [exact Hstart|]. split; [reflexivity|]. split; [reflexivity|].
  split; [reflexivity|]. split; [exact Htotal|].
  split.
  { unfold stop_tool_timer.
    cbn [running timer_dict with_timer_dict negb tool offset_model with_timer_tenths
         set_running tool_model time].
    rewrite Hidx, total_time_set_running, Htotal. reflexivity. }
  cbn [running timer_dict with_timer_dict with_tool_model tool_model with_timer_tenths].
  split; [reflexivity|].
  assert (Hset : tool_setData_TIME row "5.200" (tool_model w)
                 = alter (set_TIME 0x1.4cccccccccccdp+2%float) row (tool_model w)).
  { unfold tool_setData_TIME. rewrite Hparse. reflexivity. }
  rewrite Hset.
  split; [reflexivity|]. split; [by rewrite list_lookup_alter_eq, Hrow|].
  split; [exact Hparse | vm_compute; reflexivity].
Qed.

Lemma timer_round_trip_witness :
  let line := mkLine 2 2 0 0 0 0 0 0 0 0 0 0 0 0 0 "New tool" in
  let w := with_timer_dict (mkTimer false 2 0)
             (with_tool_model [mkTool 1 2 5%float None None None None None None None]
                (with_offset_model [new_offset_row 1 line] init)) in
  exists w2,
    stop_tool_timer (Nat.iter 120 tool_timer (state_of (start_tool_timer w))) = Returned w2
    /\ map t_TIME (tool_model w2) = [0x1.4cccccccccccdp+2%float]
    /\ map (MyToolModel_data_TIME true) (tool_model w2) = ["5.200"].
Proof.
  intros line w.
  destruct (timer_round_trip w 0 (mkTool 1 2 5%float None None None None None None None))
    as (w1 & w2 & Hs & _ & _ & _ & _ & Hstop & _ & Htm & _);
    [discriminate | reflexivity | reflexivity | reflexivity | simpl; lia |].
  exists w2. rewrite Hs. cbn [state_of]. split; [exact Hstop|].
  rewrite Htm. split; vm_compute; reflexivity.
Defined.

(** C4 on models whose rows are in different orders.  The offsets model
    holds tools 3 and 1 in that order, the tools model the rows of the same
    two tools in the order 1, 3 (the tools view sorted on its TOOL column);
    tool 1 has 7 minutes stored and the active tool, tool 3, has 5.000.
    [start_tool_timer] takes the row number of tool 3 from the offsets
    model, row 0, and reads the time of the tools row with that number,
    which is the row of tool 1: the seed is 420 seconds, not 300.  After 120
    heartbeats [stop_tool_timer] writes "7.200" to that same tools row: the
    time of tool 3 is still 5.000 and tool 1 has gained the 12 seconds. *)
Theorem timer_round_trip_uses_offsets_row_number :
  let w := mkDb [mkOffset 1 0 3 3 0 0 0 0 0 0 0 0 0 0 0 0 0 "New tool";
                 mkOffset 2 0 1 1 0 0 0 0 0 0 0 0 0 0 0 0 0 "New tool"]
                [mkTool 2 1 7 None None None None None None None;
                 mkTool 1 3 5 None None None None None None None]
                [3; 1] 2 true (Some 0%nat) (mkTimer false 3 0) 0 0 in
  (exists row r,
     tool_get_index (tool (timer_dict w)) (tool_model w) = Some row
     /\ tool_model w !! row = Some r
     /\ t_TIME r = 5%float
     /\ MyToolModel_data_TIME (metric_display w) r = "5.000")
  /\ exists w1 w2,
       start_tool_timer w = Returned w1
       /\ running (timer_dict w1) = true
       /\ time (timer_dict w1) = 420
       /\ time (timer_dict (Nat.iter 120 tool_timer w1)) = 432
       /\ stop_tool_timer (Nat.iter 120 tool_timer w1) = Returned w2
       /\ running (timer_dict w2) = false
       /\ map (fun t => (t_TOOL t, MyToolModel_data_TIME (metric_display w2) t))
            (tool_model w2)
          = [(1, "7.200"); (3, "5.000")]
       /\ map (fun t => (t_TOOL t, t_TIME t)) (tool_model w2)
          = [(1, 0x1.ccccccccccccdp+2%float); (3, 5%float)].
Proof.
  intros w. split.
  - exists 1%nat, (mkTool 1 3 5 None None None None None None None).
    split; [reflexivity|]. split; [reflexivity|]. split; [reflexivity|].
    vm_compute. reflexivity.
  - eexists _, _. split; [vm_compute; reflexivity|].
    split; [reflexivity|]. split; [reflexivity|].
    split; [vm_compute; reflexivity|].
    split; [vm_compute; reflexivity|].
    split; [reflexivity|]. split; vm_compute; reflexivity.
Qed.

(** ** The exclusive check box *)

Lemma list_checked_tools_app (a b : list offset_rec) :
  list_checked_tools (a ++ b) = (list_checked_tools a ++ list_checked_tools b)%list.
Proof.
  induction a as [|x a IH]; simpl; [done|].
  destruct (Z.eqb (o_Chk x) 1); simpl; by rewrite IH.
Qed.

Lemma list_checked_tools_uncheck (m : list offset_rec) :
  list_checked_tools (uncheck_all_tools m) = [].
Proof.
  induction m as [|x m IH]; simpl; [done|].
  destruct (Z.eqb_spec (o_Chk x) 1) as [Heq|Hne].
  - destruct x; simpl. exact IH.
  - destruct (Z.eqb_spec (o_Chk x) 1); [done | exact IH].
Qed.

Lemma uncheck_all_tools_lookup (m : list offset_rec) (row : nat) (r : offset_rec) :
  m !! row = Some r ->
  exists r', uncheck_all_tools m !! row = Some r' /\ o_Tool r' = o_Tool r.
Proof.
  intros H. unfold uncheck_all_tools. rewrite list_lookup_fmap, H. simpl.
  eexists. split; [reflexivity|]. destruct (Z.eqb (o_Chk r) 1); [by destruct r | done].
Qed.

Lemma list_checked_tools_check_one (m : list offset_rec) (row : nat) (r : offset_rec) :
  list_checked_tools m = [] -> m !! row = Some r ->
  list_checked_tools (alter (set_cell 1 (VInt 1)) row m) = [o_Tool r].
Proof.
  revert row. induction m as [|x m IH]; intros row Hnone Hrow; [done|].
  simpl in Hnone. destruct (Z.eqb (o_Chk x) 1) eqn:Hx; [done|].
  destruct row as [|row]; simpl in *.
  - inversion Hrow; subst x. destruct r; simpl. by rewrite Hnone.
  - rewrite Hx. by apply IH.
Qed.

Lemma list_checked_tools_alter_length (f : offset_rec -> offset_rec) (row : nat)
    (m : list offset_rec) :
  (forall r, o_Chk (f r) = 1 -> o_Chk r = 1) ->
  (length (list_checked_tools (alter f row m)) <= length (list_checked_tools m))%nat.
Proof.
  intros Hf. revert row. induction m as [|x m IH]; intros [|row]; simpl; try lia.
  - destruct (Z.eqb_spec (o_Chk (f x)) 1) as [H1|H1].
    + apply Hf in H1. rewrite H1. simpl. lia.
    + destruct (Z.eqb (o_Chk x) 1); simpl; lia.
  - specialize (IH row). change (list_alter f row m) with (alter f row m).
    destruct (Z.eqb (o_Chk x) 1); simpl; lia.
Qed.

Lemma list_checked_tools_delete_length (row : nat) (m : list offset_rec) :
  (length (list_checked_tools (delete row m)) <= length (list_checked_tools m))%nat.
Proof.
  revert row. induction m as [|x m IH]; intros [|row]; simpl; try lia.
  - destruct (Z.eqb (o_Chk x) 1); simpl; lia.
  - specialize (IH row). change (list_delete row m) with (delete row m).
    destruct (Z.eqb (o_Chk x) 1); simpl; lia.
Qed.

Lemma valid_index_lt (row col : nat) (m : list offset_rec) :
  valid_index row col m = true <-> (row < length m)%nat /\ (col < 18)%nat.
Proof.
  unfold valid_index. rewrite andb_true_iff, !Nat.ltb_lt. reflexivity.
Qed.

(** Setting the check state of a valid row to checked leaves exactly that
    row checked. *)
Lemma setData_checked (m : list offset_rec) (row : nat) (r : offset_rec) :
  m !! row = Some r ->
  list_checked_tools (setData row 1 Qt_Checked CheckStateRole m) = [o_Tool r].
Proof.
  intros Hrow.
  assert (Hlt : (row < length m)%nat) by (by eapply lookup_lt_Some).
  unfold setData, super_setData.
  assert (valid_index row 1 m = true) as -> by (apply valid_index_lt; lia).
  assert (valid_index row 1 (uncheck_all_tools m) = true) as ->.
  { apply valid_index_lt. unfold uncheck_all_tools. rewrite length_map. lia. }
  simpl negb. cbn [Nat.eqb value_eqb Qt_Checked andb Z.eqb Pos.eqb].
  destruct (uncheck_all_tools_lookup m row r Hrow) as (r' & Hr' & <-).
  apply list_checked_tools_check_one; [apply list_checked_tools_uncheck | exact Hr'].
Qed.

(** A click on a check box never leaves more rows checked than one, or than
    there were. *)
Lemma setData_check_role_length (m : list offset_rec) (row : nat) (v : value) :
  (length (list_checked_tools (setData row 1 v CheckStateRole m))
   <= Nat.max 1 (length (list_checked_tools m)))%nat.
Proof.
  destruct (valid_index row 1 m) eqn:Hv.
  2: { unfold setData. rewrite Hv. simpl. lia. }
  pose proof Hv as Hv'. apply valid_index_lt in Hv'. destruct Hv' as [Hlt _].
  destruct (lookup_lt_is_Some_2 m row Hlt) as [r Hr].
  destruct (value_eqb v Qt_Checked) eqn:Hc.
  - assert (v = Qt_Checked) as ->.
    { destruct v; try discriminate. simpl in Hc. apply Z.eqb_eq in Hc. by subst. }
    rewrite (setData_checked m row r Hr). simpl. lia.
  - unfold setData. rewrite Hv. cbn [negb Nat.eqb andb]. rewrite Hc.
    destruct (value_eqb v Qt_Unchecked) eqn:Hu; unfold super_setData.
    + rewrite Hv. etrans; [apply list_checked_tools_alter_length|lia].
      intros x. destruct x; simpl. discriminate.
    + lia.
Qed.

Lemma update_line_checked_length (w : Tool_Database) (line : tool_line) :
  (length (list_checked_tools (offset_model (update_line w line)))
   <= length (list_checked_tools (offset_model w)))%nat.
Proof.
  unfold update_line. cbn [offset_model with_tool_list].
  destruct (get_index (l_Tool line) (offset_model w)) as [row|].
  - cbn [offset_model with_offset_model]. rewrite update_row_alter.
    apply list_checked_tools_alter_length. intros r. by destruct r.
  - unfold addrow. cbn [offset_model with_offset_model with_autoinc with_tool_model].
    rewrite list_checked_tools_app. simpl. rewrite length_app. simpl. lia.
Qed.

Lemma delrow_checked_length (tno : Z) (w : Tool_Database) :
  (length (list_checked_tools (offset_model (delrow tno w)))
   <= length (list_checked_tools (offset_model w)))%nat.
Proof.
  unfold delrow, offset_select. destruct (get_index tno (offset_model w)); [|lia].
  cbn [offset_model with_offset_model with_tool_model].
  apply list_checked_tools_delete_length.
Qed.

Lemma update_checked_length (tool_array : list tool_line) (w : Tool_Database) :
  (length (list_checked_tools (offset_model (update tool_array w)))
   <= length (list_checked_tools (offset_model w)))%nat.
Proof.
  unfold update.
  set (w1 := fold_left update_line tool_array (with_tool_list [] w)).
  assert (H1 : (length (list_checked_tools (offset_model w1))
                <= length (list_checked_tools (offset_model w)))%nat).
  { subst w1. change (offset_model w) with (offset_model (with_tool_list [] w)).
    generalize (with_tool_list [] w). induction tool_array as [|l ls IH]; intros u.
    - simpl. lia.
    - simpl. etrans; [apply IH | apply update_line_checked_length]. }
  etrans; [|exact H1].
  generalize (if Nat.ltb 1 (length (delete_list w1)) then rev (delete_list w1)
              else delete_list w1).
  generalize w1. clear. intros u dl. revert u.
  induction dl as [|t dl IH]; intros u.
  - simpl. lia.
  - simpl. etrans; [apply IH | apply delrow_checked_length].
Qed.

Lemma start_tool_timer_offset_model (w : Tool_Database) :
  offset_model (state_of (start_tool_timer w)) = offset_model w.
Proof.
  unfold start_tool_timer. destruct (Z.eqb (tool (timer_dict w)) 0); [done|].
  cbn [offset_model with_timer_dict].
  destruct (get_index _ _); [|done].
  by destruct (seed_time _ _ _).
Qed.

Lemma stop_tool_timer_offset_model (w : Tool_Database) :
  offset_model (state_of (stop_tool_timer w)) = offset_model w.
Proof.
  unfold stop_tool_timer. destruct (negb (running (timer_dict w))); [done|].
  cbn [offset_model with_timer_dict].
  destruct (get_index _ _); [|done].
  by destruct (total_time _).
Qed.

Lemma tool_timer_offset_model (w : Tool_Database) :
  offset_model (tool_timer w) = offset_model w.
Proof.
  unfold tool_timer. cbn [timer_tenths with_timer_tenths].
  destruct (Z.eqb (timer_tenths w + 1) 10); [|done].
  cbn [timer_dict with_timer_tenths]. by destruct (running (timer_dict w)).
Qed.

Lemma handle_checked_length (e : event) (w : Tool_Database) :
  (length (get_checked_tools (state_of (handle e w)))
   <= Nat.max 1 (length (get_checked_tools w)))%nat.
Proof.
  unfold get_checked_tools. destruct e as [|am|am|tl ar|row v|ta|]; cbn [handle state_of].
  - rewrite tool_timer_offset_model. lia.
  - unfold interp_state. destruct am; cbn [negb state_of]; [|lia].
    rewrite stop_tool_timer_offset_model. lia.
  - unfold interp_state. destruct am; cbn [negb state_of]; [|lia].
    rewrite start_tool_timer_offset_model. lia.
  - unfold tool_changed. destruct (Z.ltb 0 tl); cbn [state_of offset_model with_current_row];
      [|lia].
    destruct ar; cbn [state_of offset_model with_timer_dict with_current_row]; [|lia].
    rewrite start_tool_timer_offset_model.
    cbn [offset_model with_timer_dict with_current_row]. lia.
  - cbn [offset_model with_offset_model]. apply setData_check_role_length.
  - pose proof (update_checked_length ta w). lia.
  - cbn [offset_model with_tool_model]. lia.
Qed.

(** C3.  In every state the widget reaches from a new database, at most one
    row of the offsets model is checked; and from any offsets model
    whatever, setting the check state of a row to checked through [setData]
    makes [list_checked_tools] return exactly the tool number of that row. *)
Theorem checked_tool_exclusive :
  (forall w : Tool_Database,
     reachable w -> (length (get_checked_tools w) <= 1)%nat)
  /\ (forall (m : list offset_rec) (row : nat) (r : offset_rec),
        m !! row = Some r ->
        list_checked_tools (setData row 1 Qt_Checked CheckStateRole m) = [o_Tool r]).
Proof.
  split.
  - intros w Hr. induction Hr as [|e w Hr IH].
    + simpl. lia.
    + pose proof (handle_checked_length e w). lia.
  - exact setData_checked.
Qed.

Lemma checked_tool_exclusive_witness :
  let m := [mkOffset 1 1 4 4 0 0 0 0 0 0 0 0 0 0 0 0 0 "New tool";
            mkOffset 2 1 7 7 0 0 0 0 0 0 0 0 0 0 0 0 0 "New tool";
            mkOffset 3 0 9 9 0 0 0 0 0 0 0 0 0 0 0 0 0 "New tool"] in
  list_checked_tools m = [4; 7]
  /\ list_checked_tools (setData 2 1 Qt_Checked CheckStateRole m) = [9].
Proof.
  intros m. split; [reflexivity|].
  exact (proj2 checked_tool_exclusive m 2%nat _ eq_refl).
Defined.

(** ** Reconciliation: the offsets model *)

Lemma overwrite_overwrite (d d' : tool_line) (r : offset_rec) :
  overwrite d (overwrite d' r) = overwrite d r.
Proof. reflexivity. Qed.

Lemma overwrite_new_offset_row (d : tool_line) (pkey : Z) :
  overwrite d (new_offset_row pkey d) = new_offset_row pkey d.
Proof. reflexivity. Qed.

Lemma overwrite_same_key (d : tool_line) (r r' : offset_rec) :
  o_idn r = o_idn r' -> o_Chk r = o_Chk r' -> overwrite d r = overwrite d r'.
Proof. unfold overwrite. by intros -> ->. Qed.

Lemma get_index_map (tno : Z) (m m' : list offset_rec) :
  map o_Tool m = map o_Tool m' -> get_index tno m = get_index tno m'.
Proof.
  revert m'. induction m as [|x m IH]; intros [|x' m'] H; simpl in H; try done.
  inversion H as [[Hx Hm]]. simpl. rewrite Hx. by rewrite (IH m' Hm).
Qed.

Lemma get_index_app (tno : Z) (a b : list offset_rec) :
  get_index tno (a ++ b)
  = match get_index tno a with
    | Some i => Some i
    | None => (fun i => (length a + i)%nat) <$> get_index tno b
    end.
Proof.
  induction a as [|x a IH]; simpl.
  - by destruct (get_index tno b).
  - destruct (Z.eqb (o_Tool x) tno); [done|]. rewrite IH.
    destruct (get_index tno a); [done|]. by destruct (get_index tno b).
Qed.

Lemma get_index_is_Some (tno : Z) (m : list offset_rec) :
  tno ∈ map o_Tool m -> is_Some (get_index tno m).
Proof.
  intros H. destruct (get_index tno m) eqn:E; [by eexists|].
  by apply get_index_None in E.
Qed.

(** The first row of a tool splits the model around it. *)
Lemma get_index_split (tno : Z) (m : list offset_rec) (row : nat) :
  get_index tno m = Some row ->
  exists pre r post,
    m = (pre ++ r :: post)%list /\ length pre = row /\ o_Tool r = tno
    /\ (tno ∉ map o_Tool pre) /\ delete row m = (pre ++ post)%list.
Proof.
  revert row. induction m as [|x m IH]; intros row H; simpl in H; [done|].
  destruct (Z.eqb_spec (o_Tool x) tno) as [Heq|Hne].
  - inversion H; subst row. exists [], x, m. repeat split; try done.
    apply not_elem_of_nil.
  - destruct (get_index tno m) as [i|] eqn:Hi; simpl in H; [|done].
    inversion H; subst row.
    destruct (IH i eq_refl) as (pre & r & post & -> & Hlen & Ht & Hpre & Hdel).
    exists (x :: pre), r, post. simpl. rewrite Hlen. repeat split; try done.
    + rewrite not_elem_of_cons. split; [congruence | done].
    + simpl in Hdel. by rewrite Hdel.
Qed.

Lemma last_line_app (l : list tool_line) (d : tool_line) (t : Z) :
  last_line (l ++ [d]) t = if Z.eqb (l_Tool d) t then Some d else last_line l t.
Proof.
  induction l as [|x l IH]; simpl.
  - by destruct (Z.eqb (l_Tool d) t).
  - rewrite IH. by destruct (Z.eqb (l_Tool d) t).
Qed.

Lemma last_line_is_Some (l : list tool_line) (t : Z) :
  is_Some (last_line l t) <-> t ∈ map l_Tool l.
Proof.
  induction l as [|x l IH]; simpl.
  - split; [by intros [? ?] | by intros ?%elem_of_nil].
  - rewrite elem_of_cons, <- IH. destruct (last_line l t) as [y|].
    + split; [intros _; right; by eexists | intros _; by eexists].
    + destruct (Z.eqb_spec (l_Tool x) t) as [Heq|Hne].
      * split; [intros _; by left | intros _; by eexists].
      * split; [by intros [? ?] | intros [Heq|[? ?]]; congruence].
Qed.

Lemma pending_refl (l : list tool_line) (m : list offset_rec) : pending l m m.
Proof. split; [done | by left]. Qed.

Lemma pending_tools (l : list tool_line) (m' m : list offset_rec) :
  pending l m' m -> map o_Tool m' = map o_Tool m.
Proof.
  intros [Hlen H]. apply list_eq. intros i. rewrite !list_lookup_fmap.
  destruct (H i) as [->|(r & r' & -> & -> & _ & _ & Ht & _)]; [done|].
  simpl. by rewrite Ht.
Qed.

Lemma update_line_found (w : Tool_Database) (d : tool_line) (i : nat) :
  get_index (l_Tool d) (offset_model w) = Some i ->
  update_line w d
  = with_offset_model (alter (overwrite d) i (offset_model w))
      (with_tool_list (tool_list w ++ [l_Tool d]) w).
Proof.
  intros H. unfold update_line. cbn [offset_model with_tool_list].
  by rewrite H, update_row_alter.
Qed.

Lemma update_line_absent (w : Tool_Database) (d : tool_line) :
  get_index (l_Tool d) (offset_model w) = None ->
  update_line w d = addrow d (with_tool_list (tool_list w ++ [l_Tool d]) w).
Proof.
  intros H. unfold update_line. cbn [offset_model with_tool_list]. by rewrite H.
Qed.

Lemma settled_tail (d : tool_line) (l : list tool_line) (m : list offset_rec) :
  settled (d :: l) m -> settled l m.
Proof.
  intros H t d' Hd'. apply H. simpl. by rewrite Hd'.
Qed.

(** On a model settled for [l], the first loop of [update] adds no row and
    ends on the settled model, from any model that differs from it only in
    values still to be overwritten. *)
Lemma fold_update_line_settled (l : list tool_line) :
  forall (u : Tool_Database) (m : list offset_rec),
    settled l m -> pending l (offset_model u) m ->
    fold_left update_line l u
    = with_tool_list (tool_list u ++ map l_Tool l) (with_offset_model m u).
Proof.
  induction l as [|d l IH]; intros u m Hset Hpen.
  - simpl. rewrite app_nil_r.
    assert (offset_model u = m) as <-.
    { destruct Hpen as [_ H]. apply list_eq. intros i.
      destruct (H i) as [->|(r & r' & _ & _ & _ & _ & _ & _ & [? Hl])]; [done|].
      discriminate Hl. }
    by destruct u.
  - simpl fold_left.
    assert (Hd : is_Some (last_line (d :: l) (l_Tool d))).
    { apply last_line_is_Some. simpl. apply list_elem_of_here. }
    destruct Hd as [d0 Hd0].
    destruct (Hset _ _ Hd0) as (i & r & Hi & Hr & Hov).
    assert (Hi' : get_index (l_Tool d) (offset_model u) = Some i).
    { rewrite <- Hi. apply get_index_map. by eapply pending_tools. }
    rewrite (update_line_found _ _ _ Hi').
    destruct (get_index_Some _ _ _ Hi) as (r0 & Hr0 & Htool & _).
    assert (r0 = r) as -> by congruence.
    destruct Hpen as [Hlen Hpen].
    assert (Hr' : exists r', offset_model u !! i = Some r'
                             /\ o_idn r' = o_idn r /\ o_Chk r' = o_Chk r).
    { destruct (Hpen i) as [He|(x & x' & Hx & Hx' & H1 & H2 & _)].
      - exists r. by rewrite He.
      - exists x'. assert (x = r) as -> by congruence. done. }
    destruct Hr' as (r' & Hr' & Hidn & Hchk).
    rewrite (IH _ m (settled_tail _ _ _ Hset)).
    + cbn [tool_list with_offset_model with_tool_list]. rewrite <- app_assoc.
      by destruct u.
    + cbn [offset_model with_offset_model with_tool_list]. split.
      * by rewrite length_alter.
      * intros j. destruct (decide (j = i)) as [->|Hji].
        -- rewrite list_lookup_alter_eq, Hr'. simpl.
           destruct (last_line l (l_Tool d)) as [d1|] eqn:Hl.
           ++ right. exists r, (overwrite d r'). rewrite Htool.
              repeat split; first [done | rewrite Hl; by eexists].
           ++ left. simpl in Hd0. rewrite Hl, Z.eqb_refl in Hd0.
              inversion Hd0; subst d0.
              rewrite (overwrite_same_key d r' r Hidn Hchk), Hov. by rewrite Hr.
        -- rewrite list_lookup_alter_ne by done.
           destruct (Hpen j) as [He|(x & x' & Hx & Hx' & H1 & H2 & H3 & H4 & H5)];
             [by left|].
           right. exists x, x'. repeat split; try done.
           simpl in H5. destruct (last_line l (o_Tool x)) as [y|] eqn:Hy; [by eexists|].
           destruct (Z.eqb_spec (l_Tool d) (o_Tool x)) as [Heq|Hne];
             [|by destruct H5].
           rewrite <- Heq in H4. congruence.
Qed.

Lemma tools_alter_overwrite (d : tool_line) (i : nat) (m : list offset_rec) (r : offset_rec) :
  m !! i = Some r -> o_Tool r = l_Tool d ->
  map o_Tool (alter (overwrite d) i m) = map o_Tool m.
Proof.
  intros Hr Ht. apply list_eq. intros j. rewrite !list_lookup_fmap.
  destruct (decide (j = i)) as [->|Hne].
  - rewrite list_lookup_alter_eq, Hr. simpl. by rewrite Ht.
  - by rewrite list_lookup_alter_ne.
Qed.

Lemma offset_model_addrow (d : tool_line) (w : Tool_Database) :
  offset_model (addrow d w) = (offset_model w ++ [new_offset_row (next_idn w) d])%list.
Proof. reflexivity. Qed.

(** What one line does to the Tool column: nothing when its tool number is
    there, one more entry at the end when it is not. *)
Lemma update_line_tools (w : Tool_Database) (d : tool_line) :
  map o_Tool (offset_model (update_line w d))
  = (map o_Tool (offset_model w)
     ++ match get_index (l_Tool d) (offset_model w) with
        | Some _ => []
        | None => [l_Tool d]
        end)%list.
Proof.
  destruct (get_index (l_Tool d) (offset_model w)) as [i|] eqn:Hi.
  - rewrite (update_line_found _ _ _ Hi). cbn [offset_model with_offset_model].
    destruct (get_index_Some _ _ _ Hi) as (r & Hr & Ht & _).
    rewrite (tools_alter_overwrite d i _ r Hr Ht). by rewrite app_nil_r.
  - rewrite (update_line_absent _ _ Hi), offset_model_addrow.
    cbn [offset_model with_tool_list]. by rewrite map_app.
Qed.

Lemma fold_update_line_tools_mono (l : list tool_line) (u : Tool_Database) (t : Z) :
  t ∈ map o_Tool (offset_model u) ->
  t ∈ map o_Tool (offset_model (fold_left update_line l u)).
Proof.
  revert u. induction l as [|d l IH]; intros u H; [done|].
  simpl. apply IH. rewrite update_line_tools. apply elem_of_app. by left.
Qed.

Lemma update_line_tool_list (w : Tool_Database) (d : tool_line) :
  tool_list (update_line w d) = (tool_list w ++ [l_Tool d])%list.
Proof.
  unfold update_line. cbn [offset_model with_tool_list].
  by destruct (get_index (l_Tool d) (offset_model w)).
Qed.

Lemma fold_update_line_tool_list (l : list tool_line) (u : Tool_Database) :
  tool_list (fold_left update_line l u) = (tool_list u ++ map l_Tool l)%list.
Proof.
  revert u. induction l as [|d l IH]; intros u; simpl.
  - by rewrite app_nil_r.
  - by rewrite IH, update_line_tool_list, <- app_assoc.
Qed.

(** One line keeps a settled model settled and settles its own tool. *)
Lemma update_line_settles (l : list tool_line) (w : Tool_Database) (d : tool_line) :
  settled l (offset_model w) -> settled (l ++ [d]) (offset_model (update_line w d)).
Proof.
  intros Hset t d' Hd'. rewrite last_line_app in Hd'.
  destruct (get_index (l_Tool d) (offset_model w)) as [i|] eqn:Hi.
  - rewrite (update_line_found _ _ _ Hi). cbn [offset_model with_offset_model].
    destruct (get_index_Some _ _ _ Hi) as (r & Hr & Ht & _).
    pose proof (tools_alter_overwrite d i _ r Hr Ht) as Htools.
    destruct (Z.eqb_spec (l_Tool d) t) as [Heq|Hne].
    + inversion Hd'; subst d'. subst t.
      exists i, (overwrite d r). split; [by rewrite (get_index_map _ _ _ Htools)|].
      split; [by rewrite list_lookup_alter_eq, Hr | done].
    + destruct (Hset _ _ Hd') as (i' & r' & Hi' & Hr' & Hov).
      exists i', r'. split; [by rewrite (get_index_map _ _ _ Htools)|].
      split; [|done].
      rewrite list_lookup_alter_ne; [done|].
      intros ->. destruct (get_index_Some _ _ _ Hi') as (x & Hx & Hxt & _). congruence.
  - rewrite (update_line_absent _ _ Hi), offset_model_addrow.
    cbn [offset_model with_tool_list]. rewrite get_index_app.
    destruct (Z.eqb_spec (l_Tool d) t) as [Heq|Hne].
    + inversion Hd'; subst d'. subst t. rewrite Hi. simpl. rewrite Z.eqb_refl. simpl.
      eexists _, _. split; [reflexivity|]. rewrite Nat.add_0_r.
      split; [apply list_lookup_middle; reflexivity | reflexivity].
    + destruct (Hset _ _ Hd') as (i' & r' & Hi' & Hr' & Hov). rewrite Hi'.
      exists i', r'. split; [done|]. split; [|done].
      by apply lookup_app_l_Some.
Qed.

Lemma fold_update_line_settles (l : list tool_line) (u : Tool_Database) :
  settled l (offset_model (fold_left update_line l u)).
Proof.
  induction l as [|d l IH] using rev_ind.
  - intros t d H. discriminate H.
  - rewrite fold_left_app. simpl. by apply update_line_settles.
Qed.

(** ** Reconciliation: the rows deleted *)

Lemma fold_delrow_offset_model (dl : list Z) (w : Tool_Database) :
  offset_model (fold_left (fun w tno => delrow tno w) dl w)
  = fold_left delrow_offsets dl (offset_model w).
Proof.
  revert w. induction dl as [|t dl IH]; intros w; [done|].
  simpl. rewrite IH. f_equal. unfold delrow, delrow_offsets.
  by destruct (get_index t (offset_model w)).
Qed.

Lemma fold_delrow_tool_list (dl : list Z) (w : Tool_Database) :
  tool_list (fold_left (fun w tno => delrow tno w) dl w) = tool_list w
  /\ autoinc (fold_left (fun w tno => delrow tno w) dl w) = autoinc w.
Proof.
  revert w. induction dl as [|t dl IH]; intros w; [done|].
  simpl. destruct (IH (delrow t w)) as [-> ->]. unfold delrow.
  by destruct (get_index t (offset_model w)).
Qed.

Lemma filter_keep_all (keep : Z -> bool) (m : list offset_rec) :
  List.filter (fun t => negb (keep t)) (map o_Tool m) = [] ->
  List.filter (fun r => keep (o_Tool r)) m = m.
Proof.
  induction m as [|x m IH]; simpl; [done|].
  destruct (keep (o_Tool x)); simpl; [|done]. intros H. by rewrite IH.
Qed.

(** Deleting, in any order, the first row of every tool number listed for
    deletion leaves the rows whose tool number is kept. *)
Lemma fold_delrow_offsets_filter (keep : Z -> bool) (dl : list Z) :
  forall m : list offset_rec,
    dl ≡ₚ List.filter (fun t => negb (keep t)) (map o_Tool m) ->
    fold_left delrow_offsets dl m = List.filter (fun r => keep (o_Tool r)) m.
Proof.
  induction dl as [|t dl IH]; intros m Hperm.
  - simpl. symmetry. apply filter_keep_all. by apply Permutation_nil.
  - assert (Hin : In t (List.filter (fun t => negb (keep t)) (map o_Tool m))).
    { eapply Permutation_in; [exact Hperm | by left]. }
    apply filter_In in Hin. destruct Hin as [Hin Hbad].
    apply list_elem_of_In in Hin.
    destruct (get_index_is_Some _ _ Hin) as [i Hi].
    destruct (get_index_split _ _ _ Hi) as (pre & r & post & -> & _ & Ht & _ & Hdel).
    simpl. unfold delrow_offsets at 2. rewrite Hi, Hdel.
    rewrite IH.
    + rewrite !List.filter_app. simpl. rewrite Ht.
      apply negb_true_iff in Hbad. by rewrite Hbad.
    + rewrite map_app, List.filter_app in Hperm. simpl in Hperm.
      rewrite Ht, Hbad in Hperm. apply Permutation_cons_app_inv in Hperm.
      by rewrite map_app, List.filter_app.
Qed.

Lemma get_index_filter (keep : Z -> bool) (t : Z) (m : list offset_rec) (i : nat)
    (r : offset_rec) :
  keep t = true -> get_index t m = Some i -> m !! i = Some r ->
  exists i', get_index t (List.filter (fun r => keep (o_Tool r)) m) = Some i'
             /\ List.filter (fun r => keep (o_Tool r)) m !! i' = Some r.
Proof.
  intros Hk. revert i. induction m as [|x m IH]; intros i Hi Hr; simpl in Hi; [done|].
  destruct (Z.eqb_spec (o_Tool x) t) as [Heq|Hne].
  - inversion Hi; subst i. simpl in Hr. inversion Hr; subst x.
    simpl. rewrite Heq, Hk. simpl. rewrite Heq, Z.eqb_refl. by exists 0%nat.
  - destruct (get_index t m) as [j|] eqn:Hj; simpl in Hi; [|done].
    inversion Hi; subst i. simpl in Hr.
    destruct (IH j eq_refl Hr) as (i' & Hi' & Hr').
    simpl. destruct (keep (o_Tool x)).
    + exists (S i'). simpl. destruct (Z.eqb_spec (o_Tool x) t); [done|].
      by rewrite Hi'.
    + by exists i'.
Qed.

Lemma settled_filter (l : list tool_line) (m : list offset_rec) :
  settled l m ->
  settled l (List.filter (fun r => py_in (o_Tool r) (map l_Tool l)) m).
Proof.
  intros Hset t d Hd. destruct (Hset _ _ Hd) as (i & r & Hi & Hr & Hov).
  assert (Hk : py_in t (map l_Tool l) = true).
  { apply py_in_elem_of, last_line_is_Some. by eexists. }
  destruct (get_index_filter (fun t => py_in t (map l_Tool l)) t m i r Hk Hi Hr)
    as (i' & Hi' & Hr').
  by exists i', r.
Qed.

Lemma delete_list_filtered (L : list Z) (m : list offset_rec) :
  List.filter (fun t => negb (py_in t L))
    (map o_Tool (List.filter (fun r => py_in (o_Tool r) L) m)) = [].
Proof.
  induction m as [|x m IH]; simpl; [done|].
  destruct (py_in (o_Tool x) L) eqn:Hx; simpl; [|done]. by rewrite Hx.
Qed.

(** The offsets model after [update]: the rows the first loop leaves whose
    tool number is in the tool array. *)
Lemma update_offset_model (l : list tool_line) (w : Tool_Database) :
  offset_model (update l w)
  = List.filter (fun r => py_in (o_Tool r) (map l_Tool l))
      (offset_model (fold_left update_line l (with_tool_list [] w)))
  /\ tool_list (update l w) = map l_Tool l.
Proof.
  unfold update. set (w1 := fold_left update_line l (with_tool_list [] w)).
  assert (HL : tool_list w1 = map l_Tool l).
  { subst w1. by rewrite fold_update_line_tool_list. }
  split.
  - rewrite fold_delrow_offset_model.
    rewrite (fold_delrow_offsets_filter (fun t => py_in t (map l_Tool l))); [done|].
    unfold delete_list. rewrite HL.
    destruct (Nat.ltb 1 _); [symmetry; apply Permutation_rev | done].
  - by rewrite (proj1 (fold_delrow_tool_list _ _)).
Qed.

Lemma with_tool_list_eta (u : Tool_Database) :
  with_tool_list (tool_list u) (with_offset_model (offset_model u) (with_tool_list [] u)) = u.
Proof. by destruct u. Qed.

(** The first loop of a second [update] with the same tool array gives the
    widget back as the first [update] left it. *)
Lemma fold_update_line_after_update (l : list tool_line) (w : Tool_Database) :
  fold_left update_line l (with_tool_list [] (update l w)) = update l w.
Proof.
  destruct (update_offset_model l w) as [Hm HL].
  rewrite (fold_update_line_settled l _ (offset_model (update l w))).
  - cbn [tool_list with_tool_list app]. rewrite <- HL. apply with_tool_list_eta.
  - rewrite Hm. apply settled_filter, fold_update_line_settles.
  - apply pending_refl.
Qed.

(** C2.  A second [update] with the same tool array, right after the first,
    leaves the widget exactly as the first left it (both models, the cached
    tool list and the key counter of the store); in it the list of tools to
    delete is empty, so no row is deleted, and every line finds the row of
    its tool number when it is processed, so no row is inserted. *)
Theorem update_idempotent (l : list tool_line) (w : Tool_Database) :
  update l (update l w) = update l w
  /\ delete_list (fold_left update_line l (with_tool_list [] (update l w))) = []
  /\ (forall l1 d l2,
        l = (l1 ++ d :: l2)%list ->
        is_Some (get_index (l_Tool d)
                   (offset_model (fold_left update_line l1
                                    (with_tool_list [] (update l w)))))).
Proof.
  destruct (update_offset_model l w) as [Hm HL].
  assert (Hdl : delete_list (update l w) = []).
  { unfold delete_list. rewrite HL, Hm. apply delete_list_filtered. }
  split; [|split].
  - unfold update at 1. rewrite fold_update_line_after_update, Hdl. reflexivity.
  - by rewrite fold_update_line_after_update.
  - intros l1 d l2 Hl. apply get_index_is_Some, fold_update_line_tools_mono.
    cbn [offset_model with_tool_list].
    assert (Hset : settled l (offset_model (update l w))).
    { rewrite Hm. apply settled_filter, fold_update_line_settles. }
    assert (Hd : is_Some (last_line l (l_Tool d))).
    { apply last_line_is_Some. subst l. rewrite map_app. apply elem_of_app. right.
      simpl. apply list_elem_of_here. }
    destruct Hd as [d' Hd'].
    destruct (Hset _ _ Hd') as (i & r & Hi & _).
    destruct (get_index_Some _ _ _ Hi) as (x & Hx & Hxt & _).
    rewrite <- Hxt. apply list_elem_of_fmap. exists x. split; [done|].
    by eapply list_elem_of_lookup_2.
Qed.

Lemma update_idempotent_witness :
  let old := mkLine 2 2 0 0 0 0 0 0 0 0 0 0 0 0 0 "old" in
  let l := [mkLine 1 1 0 0 0 0 0 0 0 0 0 0 0 0 0 "drill";
            mkLine 3 3 0 0 0 0 0 0 0 0 0 0 0 0 0 "New tool"] in
  let w := update [mkLine 1 1 0 0 0 0 0 0 0 0 0 0 0 0 0 "New tool"; old] init in
  map o_Tool (offset_model w) = [1; 2]
  /\ map o_Tool (offset_model (update l w)) = [1; 3]
  /\ map t_TOOL (tool_model (update l w)) = [1; 3]
  /\ update l (update l w) = update l w.
Proof.
  intros old l w. split; [reflexivity|]. split; [reflexivity|]. split; [reflexivity|].
  exact (proj1 (update_idempotent l w)).
Defined.

(** ** Reconciliation: the two models together *)

(** After [update] the tool numbers of the offsets model are those of the
    tool array, from any widget state. *)
Theorem update_offsets_tool_set (l : list tool_line) (w : Tool_Database) (t : Z) :
  t ∈ map o_Tool (offset_model (update l w)) <-> t ∈ map l_Tool l.
Proof.
  destruct (update_offset_model l w) as [Hm _]. split.
  - rewrite Hm. intros H. apply list_elem_of_fmap in H. destruct H as (r & -> & Hr).
    apply list_elem_of_In, filter_In in Hr. destruct Hr as [_ Hr].
    by apply py_in_elem_of.
  - intros H. apply last_line_is_Some in H. destruct H as [d Hd].
    assert (Hset : settled l (offset_model (update l w))).
    { rewrite Hm. apply settled_filter, fold_update_line_settles. }
    destruct (Hset _ _ Hd) as (i & r & Hi & _).
    destruct (get_index_Some _ _ _ Hi) as (x & Hx & Hxt & _).
    rewrite <- Hxt. apply list_elem_of_fmap. exists x. split; [done|].
    by eapply list_elem_of_lookup_2.
Qed.

Lemma next_idn_fresh (w : Tool_Database) (o : offset_rec) :
  o ∈ offset_model w -> o_idn o < next_idn w.
Proof.
  unfold next_idn. generalize (autoinc w). induction (offset_model w) as [|x m IH];
    intros a H.
  - by apply elem_of_nil in H.
  - apply elem_of_cons in H. simpl. destruct H as [->|H]; [lia|].
    specialize (IH a H). lia.
Qed.

Lemma addrow_aligned (d : tool_line) (w : Tool_Database) :
  aligned w -> aligned (addrow d w).
Proof.
  intros [Hf Hnd]. unfold aligned, addrow.
  cbn [offset_model tool_model with_tool_model with_autoinc with_offset_model].
  assert (Hfresh : existsb (fun t => Z.eqb (t_idn t) (next_idn w)) (tool_model w) = false).
  { apply not_true_is_false. intros H. apply existsb_exists in H.
    destruct H as (t & Ht & Heq). apply Z.eqb_eq in Heq.
    apply list_elem_of_In, list_elem_of_lookup in Ht. destruct Ht as [i Hi].
    destruct (Forall2_lookup_r _ _ _ _ _ Hf Hi) as (o & Ho & Hid & _).
    pose proof (next_idn_fresh w o (list_elem_of_lookup_2 _ _ _ Ho)). lia. }
  unfold tool_addrow. rewrite Hfresh. split.
  - apply Forall2_app; [done|]. constructor; [|constructor]. by split.
  - rewrite map_app. apply NoDup_app. split; [done|]. split.
    + intros x Hx Hx'. simpl in Hx'. apply list_elem_of_singleton in Hx'. subst x.
      apply list_elem_of_fmap in Hx. destruct Hx as (o & Ho & Hin).
      pose proof (next_idn_fresh w o Hin). lia.
    + simpl. apply NoDup_singleton.
Qed.

Lemma update_line_aligned (w : Tool_Database) (d : tool_line) :
  aligned w -> aligned (update_line w d).
Proof.
  intros Ha. destruct (get_index (l_Tool d) (offset_model w)) as [i|] eqn:Hi.
  - rewrite (update_line_found _ _ _ Hi). destruct Ha as [Hf Hnd]. unfold aligned.
    cbn [offset_model tool_model with_offset_model with_tool_list].
    destruct (get_index_Some _ _ _ Hi) as (r & Hr & Ht & _). split.
    + apply Forall2_alter_l; [done|]. intros x y Hx _ [H1 H2].
      assert (x = r) as -> by congruence. split; [done|]. simpl. congruence.
    + assert (map o_idn (alter (overwrite d) i (offset_model w))
              = map o_idn (offset_model w)) as ->; [|done].
      apply list_eq. intros j. rewrite !list_lookup_fmap.
      destruct (decide (j = i)) as [->|Hne].
      * rewrite list_lookup_alter_eq. by destruct (offset_model w !! i).
      * by rewrite list_lookup_alter_ne.
  - rewrite (update_line_absent _ _ Hi). by apply addrow_aligned.
Qed.

Lemma fold_update_line_aligned (l : list tool_line) (u : Tool_Database) :
  aligned u -> aligned (fold_left update_line l u).
Proof.
  revert u. induction l as [|d l IH]; intros u Hu; [done|].
  simpl. apply IH. by apply update_line_aligned.
Qed.

Lemma paired_tools (om : list offset_rec) (tm : list tool_rec) :
  Forall2 paired om tm ->
  map t_TOOL tm = map o_Tool om /\ map t_idn tm = map o_idn om.
Proof.
  induction 1 as [|o t om tm [H1 H2] _ [IH1 IH2]]; [done|].
  simpl. by rewrite H1, H2, IH1, IH2.
Qed.

(** [select] on the tools model gives the rows it is given, in another
    order. *)
Lemma tool_insert_perm (r : tool_rec) (m : list tool_rec) : tool_insert r m ≡ₚ r :: m.
Proof.
  induction m as [|x m IH]; simpl; [done|].
  destruct (tool_before r x); [done|].
  rewrite IH. apply perm_swap.
Qed.

Lemma tool_select_perm (m : list tool_rec) : tool_select m ≡ₚ m.
Proof.
  induction m as [|x m IH]; simpl; [done|].
  rewrite tool_insert_perm. by constructor.
Qed.

Lemma fold_update_line_tools_from (l : list tool_line) (u : Tool_Database) (t : Z) :
  t ∈ map o_Tool (offset_model (fold_left update_line l u)) ->
  t ∈ map o_Tool (offset_model u) \/ t ∈ map l_Tool l.
Proof.
  revert u. induction l as [|d l IH]; intros u H; [by left|].
  simpl in H. apply IH in H. destruct H as [H|H].
  - rewrite update_line_tools in H. apply elem_of_app in H. destruct H as [H|H]; [by left|].
    right. destruct (get_index (l_Tool d) (offset_model u)).
    + by apply elem_of_nil in H.
    + apply list_elem_of_singleton in H. subst t. apply list_elem_of_here.
  - right. simpl. by apply elem_of_cons; right.
Qed.

(** When every tool number of the offsets model is in the tool array, the
    second loop of [update] finds nothing to delete, and [update] is its
    first loop. *)
Lemma update_without_deletion (l : list tool_line) (w : Tool_Database) :
  (forall t, t ∈ map o_Tool (offset_model w) -> t ∈ map l_Tool l) ->
  update l w = fold_left update_line l (with_tool_list [] w).
Proof.
  intros Hall. unfold update.
  set (w1 := fold_left update_line l (with_tool_list [] w)).
  assert (Hdl : delete_list w1 = []).
  { unfold delete_list.
    assert (HL : tool_list w1 = map l_Tool l).
    { subst w1. by rewrite fold_update_line_tool_list. }
    rewrite HL.
    assert (Hin : forall t, t ∈ map o_Tool (offset_model w1) -> t ∈ map l_Tool l).
    { intros t Ht. subst w1. apply fold_update_line_tools_from in Ht.
      destruct Ht as [Ht|Ht]; [by apply Hall | done]. }
    revert Hin. generalize (map o_Tool (offset_model w1)).
    intros ts. induction ts as [|x ts IH]; intros Hin; [done|].
    simpl. assert (Hx : py_in x (map l_Tool l) = true).
    { apply py_in_elem_of, Hin, list_elem_of_here. }
    rewrite Hx. simpl. apply IH. intros t Ht. apply Hin. by apply elem_of_cons; right. }
  rewrite Hdl. reflexivity.
Qed.

Lemma reachable_update (ta : list tool_line) (w : Tool_Database) :
  reachable w -> reachable (update ta w).
Proof. intros H. exact (reach_step (Reload ta) w H). Qed.

Lemma reachable_tool_select (w : Tool_Database) :
  reachable w -> reachable (with_tool_model (tool_select (tool_model w)) w).
Proof. intros H. exact (reach_step ToolViewSorted w H). Qed.

(** Reconciliation that deletes nothing, from aligned models: when every
    tool number of the offsets model is in the tool array, the models stay
    aligned (every offsets row has its tools row at the same row number,
    under the same surrogate id, which no other row carries), and the tool
    numbers of either model are exactly those of the tool array. *)
Theorem update_without_deletion_keeps_aligned (l : list tool_line) (w : Tool_Database) :
  aligned w ->
  (forall t, t ∈ map o_Tool (offset_model w) -> t ∈ map l_Tool l) ->
  aligned (update l w)
  /\ (forall t, t ∈ map o_Tool (offset_model (update l w)) <-> t ∈ map l_Tool l)
  /\ (forall t, t ∈ map t_TOOL (tool_model (update l w)) <-> t ∈ map l_Tool l)
  /\ map t_idn (tool_model (update l w)) = map o_idn (offset_model (update l w)).
Proof.
  intros Ha Hall.
  assert (Ha' : aligned (update l w)).
  { rewrite (update_without_deletion l w Hall). by apply fold_update_line_aligned. }
  destruct (paired_tools _ _ (proj1 Ha')) as [Ht Hi].
  split; [done|]. split; [apply update_offsets_tool_set|]. split; [|done].
  intros t. rewrite Ht. apply update_offsets_tool_set.
Qed.

Lemma update_without_deletion_keeps_aligned_witness :
  let w := update [mkLine 3 3 0 0 0 0 0 0 0 0 0 0 0 0 0 "New tool";
                   mkLine 1 1 0 0 0 0 0 0 0 0 0 0 0 0 0 "New tool"] init in
  let l := [mkLine 1 1 0 0 0 0 0 0 0 0 0 0 0 0 0 "drill";
            mkLine 2 2 0 0 0 0 0 0 0 0 0 0 0 0 0 "New tool";
            mkLine 3 3 0 0 0 0 0 0 0 0 0 0 0 0 0 "New tool"] in
  aligned w
  /\ aligned (update l w)
  /\ map o_Tool (offset_model (update l w)) = [3; 1; 2]
  /\ map t_TOOL (tool_model (update l w)) = [3; 1; 2]
  /\ map o_Comment (offset_model (update l w)) = ["New tool"; "drill"; "New tool"].
Proof.
  intros w l.
  assert (Ha : aligned w).
  { split; [|apply (bool_decide_unpack _); vm_compute; exact I].
    vm_compute. repeat constructor. }
  assert (Hall : forall t, t ∈ map o_Tool (offset_model w) -> t ∈ map l_Tool l).
  { intros t Ht. apply py_in_elem_of.
    change (map o_Tool (offset_model w)) with [3; 1] in Ht.
    apply elem_of_cons in Ht. destruct Ht as [->|Ht]; [reflexivity|].
    apply list_elem_of_singleton in Ht. subst t. reflexivity. }
  split; [exact Ha|].
  split; [exact (proj1 (update_without_deletion_keeps_aligned l w Ha Hall))|].
  split; [reflexivity|]. split; reflexivity.
Defined.

(** The hypothesis is needed.  From a new database the first reconciliation
    loads tools 3, 1, 2 and 5 and leaves the models aligned.  Reconciling
    against tools 3 and 1 deletes tool 5 from both models, after which the
    tools model is queried again and comes back in the order of [TOOL]:
    the deletion of tool 2, at row number 2 of the offsets model, then takes
    the tools row of tool 3.  The offsets model is left with tools 3 and 1,
    the tools model with tools 1 and 2. *)
Lemma update_with_deletions_loses_pairing :
  let w := update [mkLine 3 3 0 0 0 0 0 0 0 0 0 0 0 0 0 "New tool";
                   mkLine 1 1 0 0 0 0 0 0 0 0 0 0 0 0 0 "New tool";
                   mkLine 2 2 0 0 0 0 0 0 0 0 0 0 0 0 0 "New tool";
                   mkLine 5 5 0 0 0 0 0 0 0 0 0 0 0 0 0 "New tool"] init in
  let l := [mkLine 3 3 0 0 0 0 0 0 0 0 0 0 0 0 0 "New tool";
            mkLine 1 1 0 0 0 0 0 0 0 0 0 0 0 0 0 "New tool"] in
  reachable w
  /\ aligned w
  /\ map o_Tool (offset_model (update l w)) = [3; 1]
  /\ map t_TOOL (tool_model (update l w)) = [1; 2]
  /\ map o_idn (offset_model (update l w)) = [1; 2]
  /\ map t_idn (tool_model (update l w)) = [2; 3].
Proof.
  intros w l.
  split; [apply reachable_update, reach_init|].
  split.
  { split; [|apply (bool_decide_unpack _); vm_compute; exact I].
    vm_compute. repeat constructor. }
  split; [reflexivity|]. split; [reflexivity|]. split; reflexivity.
Qed.

(** C1 on models that are not aligned.  The offsets model holds tools 3 and
    1 in that order and the tools model holds the rows of the same two tools,
    under the same surrogate ids, in the order 1, 3 (the tools view sorted
    on its TOOL column).  Reconciling against a tool array with tool 3 alone
    deletes the offsets row of tool 1, at row number 1, and with it the tools
    row at row number 1, which is the row of tool 3: the offsets model is
    left with tool 3 and the tools model with tool 1, under different
    surrogate ids. *)
Theorem update_deletes_tools_row_by_offsets_row_number :
  let w := mkDb [mkOffset 1 0 3 3 0 0 0 0 0 0 0 0 0 0 0 0 0 "New tool";
                 mkOffset 2 0 1 1 0 0 0 0 0 0 0 0 0 0 0 0 0 "New tool"]
                [mkTool 2 1 0 None None None None None None None;
                 mkTool 1 3 0 None None None None None None None]
                [3; 1] 2 true (Some 0%nat) (mkTimer false 0 0) 0 0 in
  let l := [mkLine 3 3 0 0 0 0 0 0 0 0 0 0 0 0 0 "New tool"] in
  map (fun o => (o_idn o, o_Tool o)) (offset_model w)
    ≡ₚ map (fun t => (t_idn t, t_TOOL t)) (tool_model w)
  /\ map o_Tool (offset_model (update l w)) = [3]
  /\ map t_TOOL (tool_model (update l w)) = [1]
  /\ map o_idn (offset_model (update l w)) = [1]
  /\ map t_idn (tool_model (update l w)) = [2]
  /\ ~ (forall t, t ∈ map t_TOOL (tool_model (update l w)) <-> t ∈ map l_Tool l).
Proof.
  intros w l. split; [apply perm_swap|].
  split; [reflexivity|]. split; [reflexivity|]. split; [reflexivity|].
  split; [reflexivity|].
  intros H. specialize (H 3). destruct H as [_ H].
  assert (H3 : 3 ∈ [1]) by (apply H; apply list_elem_of_here).
  apply list_elem_of_singleton in H3. discriminate H3.
Qed.

(** The widget reaches models in these orders.  Over a new database,
    [MyOffsetModel.__init__] reconciles against tools 3 and 1, which appends
    the rows of both tools to either model in that order; [init_tool_view]
    then sorts the tools model on [TOOL]. *)
Lemma sorted_tools_view_reachable :
  reachable
    (mkDb [mkOffset 1 0 3 3 0 0 0 0 0 0 0 0 0 0 0 0 0 "New tool";
           mkOffset 2 0 1 1 0 0 0 0 0 0 0 0 0 0 0 0 0 "New tool"]
          [mkTool 2 1 0 None None None None None None None;
           mkTool 1 3 0 None None None None None None None]
          [3; 1] 2 true (Some 0%nat) (mkTimer false 0 0) 0 0).
Proof.
  pose (ta := [mkLine 3 3 0 0 0 0 0 0 0 0 0 0 0 0 0 "New tool";
               mkLine 1 1 0 0 0 0 0 0 0 0 0 0 0 0 0 "New tool"]).
  pose proof (reachable_tool_select _ (reachable_update ta _ reach_init)) as H.
  vm_compute in H. exact H.
Qed.

(** ** Further properties: lookups *)

(** With every number of 0..99 known, [get_next_available] runs out of
    candidates: it returns 99, a number in use, and records it. *)
Theorem get_next_available_all_known (w : Tool_Database) :
  (forall k, 0 <= k < 100 -> k ∈ tool_list w) ->
  fst (get_next_available w) = 99
  /\ next_available (snd (get_next_available w)) = 99
  /\ 99 ∈ tool_list w.
Proof.
  intros Hall. destruct (scan_available_100 (tool_list w)) as [_ H].
  specialize (H Hall). unfold get_next_available. cbn [fst snd].
  rewrite H. repeat split. apply Hall. lia.
Qed.

Lemma get_next_available_all_known_witness :
  let w := with_tool_list (seqZ 0 100) init in
  (forall k, 0 <= k < 100 -> k ∈ tool_list w)
  /\ fst (get_next_available w) = 99.
Proof.
  intros w.
  assert (H : forall k, 0 <= k < 100 -> k ∈ tool_list w).
  { intros k Hk. apply elem_of_seqZ. lia. }
  split; [exact H|]. exact (proj1 (get_next_available_all_known w H)).
Defined.

(** ** Further properties: reconciliation *)

(** What [update] leaves alone: the display mode, the current row, the
    timer, the heartbeat phase and the recorded next tool number. *)
Lemma update_line_frame (w : Tool_Database) (d : tool_line) :
  metric_display (update_line w d) = metric_display w
  /\ current_row (update_line w d) = current_row w
  /\ timer_dict (update_line w d) = timer_dict w
  /\ timer_tenths (update_line w d) = timer_tenths w
  /\ next_available (update_line w d) = next_available w.
Proof.
  unfold update_line. cbn [offset_model with_tool_list].
  by destruct (get_index (l_Tool d) (offset_model w)).
Qed.

Lemma delrow_frame (tno : Z) (w : Tool_Database) :
  metric_display (delrow tno w) = metric_display w
  /\ current_row (delrow tno w) = current_row w
  /\ timer_dict (delrow tno w) = timer_dict w
  /\ timer_tenths (delrow tno w) = timer_tenths w
  /\ next_available (delrow tno w) = next_available w.
Proof.
  unfold delrow. by destruct (get_index tno (offset_model w)).
Qed.

Lemma update_frame (l : list tool_line) (w : Tool_Database) :
  metric_display (update l w) = metric_display w
  /\ current_row (update l w) = current_row w
  /\ timer_dict (update l w) = timer_dict w
  /\ timer_tenths (update l w) = timer_tenths w
  /\ next_available (update l w) = next_available w.
Proof.
  unfold update.
  set (P := fun u : Tool_Database =>
              metric_display u = metric_display w
              /\ current_row u = current_row w
              /\ timer_dict u = timer_dict w
              /\ timer_tenths u = timer_tenths w
              /\ next_available u = next_available w).
  assert (H1 : P (fold_left update_line l (with_tool_list [] w))).
  { assert (H0 : P (with_tool_list [] w)) by (by unfold P).
    revert H0. generalize (with_tool_list [] w).
    induction l as [|d l IH]; intros u Hu; [done|].
    simpl. apply IH. unfold P in *.
    destruct (update_line_frame u d) as (-> & -> & -> & -> & ->). exact Hu. }
  revert H1. set (w1 := fold_left update_line l (with_tool_list [] w)).
  generalize (if Nat.ltb 1 (length (delete_list w1)) then rev (delete_list w1)
              else delete_list w1).
  generalize w1. intros u dl. revert u.
  induction dl as [|t dl IH]; intros u Hu; [exact Hu|].
  simpl. apply IH. unfold P in *.
  destruct (delrow_frame t u) as (-> & -> & -> & -> & ->). exact Hu.
Qed.

(** After [update], from any widget state, [get_tool_list] returns the tool
    numbers of the tool array in array order, repeats included, and a tool
    number has a row in the offsets model exactly when it is in that list. *)
Theorem update_refreshes_tool_list (l : list tool_line) (w : Tool_Database) :
  get_tool_list (update l w) = map l_Tool l
  /\ forall t, t ∈ map o_Tool (offset_model (update l w))
               <-> t ∈ get_tool_list (update l w).
Proof.
  unfold get_tool_list. destruct (update_offset_model l w) as [_ HL].
  split; [exact HL|]. intros t. rewrite HL. apply update_offsets_tool_set.
Qed.

Lemma fold_delrow_lengths (dl : list Z) (w : Tool_Database) :
  length (tool_model w) = length (offset_model w) ->
  length (tool_model (fold_left (fun w tno => delrow tno w) dl w))
  = length (offset_model (fold_left (fun w tno => delrow tno w) dl w)).
Proof.
  revert w. induction dl as [|t dl IH]; intros w H; [exact H|].
  simpl. apply IH. unfold delrow.
  destruct (get_index t (offset_model w)) as [row|] eqn:Hrow; [|exact H].
  cbn [tool_model offset_model with_tool_model with_offset_model].
  destruct (get_index_Some _ _ _ Hrow) as (r & Hr & _).
  apply lookup_lt_Some in Hr.
  rewrite (Permutation_length (tool_select_perm _)). unfold offset_select.
  rewrite !length_delete; [lia | | ].
  - apply lookup_lt_is_Some_2. lia.
  - apply lookup_lt_is_Some_2. lia.
Qed.

(** Reconciling against an empty tool array empties the offsets model and
    the cached tool list, from any widget state; it empties the tools model
    too when that has as many rows as the offsets model. *)
Theorem update_empty_array (w : Tool_Database) :
  offset_model (update [] w) = []
  /\ get_tool_list (update [] w) = []
  /\ (length (tool_model w) = length (offset_model w) -> tool_model (update [] w) = []).
Proof.
  destruct (update_offset_model [] w) as [Hm HL].
  assert (Hom : offset_model (update [] w) = []).
  { rewrite Hm. simpl. induction (offset_model w) as [|x m IH]; [done | exact IH]. }
  split; [exact Hom|]. split; [exact HL|].
  intros Hlen. apply length_zero_iff_nil.
  assert (H : length (tool_model (update [] w)) = length (offset_model (update [] w))).
  { unfold update. apply fold_delrow_lengths. exact Hlen. }
  rewrite H, Hom. reflexivity.
Qed.

Lemma update_empty_array_witness :
  let w := update [mkLine 1 1 0 0 0 0 0 0 0 0 0 0 0 0 0 "New tool";
                   mkLine 2 2 0 0 0 0 0 0 0 0 0 0 0 0 0 "New tool"] init in
  length (offset_model w) = 2%nat
  /\ length (tool_model w) = length (offset_model w)
  /\ offset_model (update [] w) = []
  /\ tool_model (update [] w) = [].
Proof.
  intros w.
  assert (H : length (tool_model w) = length (offset_model w)) by reflexivity.
  split; [reflexivity|]. split; [exact H|].
  destruct (update_empty_array w) as (H1 & _ & H2).
  split; [exact H1 | exact (H2 H)].
Defined.

(** ** Further properties: the timer and the events *)

(** What the handlers of the timer leave in [timer_dict] and the phase. *)
Lemma start_tool_timer_timer (w : Tool_Database) :
  timer_tenths (state_of (start_tool_timer w)) = timer_tenths w
  /\ tool (timer_dict (state_of (start_tool_timer w))) = tool (timer_dict w)
  /\ (running (timer_dict (state_of (start_tool_timer w))) = true ->
      running (timer_dict w) = true \/ tool (timer_dict w) <> 0).
Proof.
  unfold start_tool_timer. destruct (Z.eqb_spec (tool (timer_dict w)) 0) as [H0|H0].
  - cbn [state_of]. repeat split. by left.
  - cbn [offset_model with_timer_dict].
    destruct (get_index _ _); [destruct (seed_time _ _ _)|]; cbn; repeat split;
      intros _; by right.
Qed.

Lemma stop_tool_timer_timer (w : Tool_Database) :
  timer_tenths (state_of (stop_tool_timer w)) = timer_tenths w
  /\ tool (timer_dict (state_of (stop_tool_timer w))) = tool (timer_dict w)
  /\ running (timer_dict (state_of (stop_tool_timer w))) = false.
Proof.
  unfold stop_tool_timer. destruct (running (timer_dict w)) eqn:Hr; cbn [negb].
  - cbn [offset_model with_timer_dict].
    destruct (get_index _ _); [destruct (total_time _)|]; cbn; repeat split.
  - cbn [state_of]. repeat split. exact Hr.
Qed.

Lemma handle_timer_invariant (e : event) (w : Tool_Database) :
  0 <= timer_tenths w <= 9 /\ 0 <= tool (timer_dict w)
  /\ (running (timer_dict w) = true -> 0 < tool (timer_dict w)) ->
  0 <= timer_tenths (state_of (handle e w)) <= 9
  /\ 0 <= tool (timer_dict (state_of (handle e w)))
  /\ (running (timer_dict (state_of (handle e w))) = true ->
      0 < tool (timer_dict (state_of (handle e w)))).
Proof.
  intros (Hph & Htool & Hrun).
  destruct e as [|am|am|tl ar|row v|ta|]; cbn [handle state_of].
  - unfold tool_timer. cbn [timer_tenths with_timer_tenths].
    destruct (Z.eqb_spec (timer_tenths w + 1) 10) as [H|H].
    + cbn [timer_dict with_timer_tenths].
      destruct (running (timer_dict w)) eqn:Hr; cbn;
        (split; [lia|]); (split; [lia|]); intros Hr'; apply Hrun; congruence.
    + cbn. repeat split; try lia. exact Hrun.
  - unfold interp_state. destruct am; cbn [negb state_of]; [|done].
    destruct (stop_tool_timer_timer w) as (-> & -> & ->). repeat split; try lia; done.
  - unfold interp_state. destruct am; cbn [negb state_of]; [|done].
    destruct (start_tool_timer_timer w) as (-> & -> & H). repeat split; try lia.
    intros Hr. destruct (H Hr) as [H'|H']; [by apply Hrun | lia].
  - unfold tool_changed. destruct (Z.ltb_spec 0 tl) as [Hpos|Hneg].
    + destruct ar.
      * set (u := with_timer_dict _ _).
        destruct (start_tool_timer_timer u) as (-> & -> & H). subst u.
        cbn [timer_tenths timer_dict with_timer_dict with_current_row set_tool tool].
        repeat split; lia.
      * cbn. repeat split; lia.
    + cbn. repeat split; try lia. exact Hrun.
  - cbn. repeat split; try lia. exact Hrun.
  - destruct (update_frame ta w) as (_ & _ & -> & -> & _). repeat split; try lia.
    exact Hrun.
  - cbn. repeat split; try lia. exact Hrun.
Qed.

(** In every state the widget reaches from a new database the heartbeat
    phase lies within 0..9, the tool of the timer is never negative, and the
    timer runs only for a tool number above zero. *)
Theorem reachable_timer_invariant (w : Tool_Database) :
  reachable w ->
  0 <= timer_tenths w <= 9
  /\ 0 <= tool (timer_dict w)
  /\ (running (timer_dict w) = true -> 0 < tool (timer_dict w)).
Proof.
  induction 1 as [|e w Hr IH].
  - cbn. repeat split; try lia; discriminate.
  - by apply handle_timer_invariant.
Qed.

Lemma reachable_timer_invariant_witness :
  let line := mkLine 4 4 0 0 0 0 0 0 0 0 0 0 0 0 0 "New tool" in
  let w := state_of (handle Periodic
             (state_of (handle (ToolInSpindleChanged 4 true)
                (state_of (handle (Reload [line]) init))))) in
  reachable w
  /\ timer_tenths w = 1
  /\ running (timer_dict w) = true
  /\ 0 < tool (timer_dict w).
Proof.
  intros line w.
  assert (Hr : reachable w) by (do 3 apply reach_step; apply reach_init).
  split; [exact Hr|]. split; [reflexivity|]. split; [reflexivity|].
  exact (proj2 (proj2 (reachable_timer_invariant w Hr)) eq_refl).
Defined.

(** A tool change writes to neither table.  When the new tool is above zero,
    has an offsets row and the controller runs a program, the timer is
    switched to the new tool and seeded from the time stored in the tools
    row with the row number of that offsets row: the seconds counted for the
    tool before are replaced, not written back. *)
Theorem tool_changed_writes_no_table (w : Tool_Database) (tl : Z) (auto_running : bool) :
  offset_model (state_of (tool_changed tl auto_running w)) = offset_model w
  /\ tool_model (state_of (tool_changed tl auto_running w)) = tool_model w
  /\ tool_list (state_of (tool_changed tl auto_running w)) = tool_list w
  /\ (forall row s,
        0 < tl -> auto_running = true ->
        get_index tl (offset_model w) = Some row ->
        seed_time (metric_display w) row (tool_model w) = Some s ->
        tool_changed tl auto_running w
        = Returned (with_timer_dict (mkTimer true tl s) (with_current_row (Some row) w))).
Proof.
  unfold tool_changed.
  destruct (Z.ltb_spec 0 tl) as [Hpos|Hneg].
  - assert (Hne : Z.eqb tl 0 = false) by (apply Z.eqb_neq; lia).
    rewrite Hne. destruct auto_running.
    + unfold start_tool_timer.
      cbn [timer_dict with_timer_dict set_tool tool offset_model with_current_row
           tool_model metric_display set_running running time].
      rewrite Hne.
      destruct (get_index tl (offset_model w)) as [row|] eqn:Hrow.
      * destruct (seed_time (metric_display w) row (tool_model w)) as [s|] eqn:Hs;
          cbn; repeat split; intros row' s' _ _ Hrow' Hs'; inversion Hrow'; subst row';
          rewrite Hs in Hs'; inversion Hs'; subst. reflexivity.
      * cbn. repeat split. intros row s _ _ Hrow'. discriminate Hrow'.
    + cbn. repeat split. intros row s _ Har. discriminate Har.
  - cbn. repeat split. intros row s Hpos. lia.
Qed.

Lemma tool_changed_writes_no_table_witness :
  let w := with_timer_dict (mkTimer true 1 45)
             (update [mkLine 1 1 0 0 0 0 0 0 0 0 0 0 0 0 0 "New tool";
                      mkLine 2 2 0 0 0 0 0 0 0 0 0 0 0 0 0 "New tool"] init) in
  time (timer_dict w) = 45
  /\ timer_dict (state_of (tool_changed 2 true w)) = mkTimer true 2 0
  /\ tool_model (state_of (tool_changed 2 true w)) = tool_model w.
Proof.
  intros w. split; [reflexivity|].
  destruct (tool_changed_writes_no_table w 2 true) as (_ & H2 & _ & H4).
  split; [|exact H2].
  rewrite (H4 1%nat 0); [reflexivity | lia | reflexivity | reflexivity |].
  vm_compute. reflexivity.
Defined.

(** ** Further properties: check states read back *)


Lemma setData_unchecked_alter (m : list offset_rec) (row : nat) (r : offset_rec) :
  m !! row = Some r ->
  setData row 1 Qt_Unchecked CheckStateRole m = alter (set_cell 1 (VInt 0)) row m.
Proof.
  intros Hrow. assert (Hlt : (row < length m)%nat) by (by eapply lookup_lt_Some).
  unfold setData, super_setData.
  assert (valid_index row 1 m = true) as -> by (apply valid_index_lt; lia).
  reflexivity.
Qed.



Lemma list_checked_tools_uncheck_one (m : list offset_rec) (row : nat) (r : offset_rec) :
  m !! row = Some r -> o_Chk r = 1 ->
  S (length (list_checked_tools (alter (set_cell 1 (VInt 0)) row m)))
  = length (list_checked_tools m).
Proof.
  revert row. induction m as [|x m IH]; intros [|row] Hrow Hchk; simpl in *; try done.
  - inversion Hrow; subst x. rewrite Hchk. destruct r; simpl. reflexivity.
  - change (list_alter (set_cell 1 (VInt 0)) row m)
      with (alter (set_cell 1 (VInt 0)) row m).
    specialize (IH row Hrow Hchk). destruct (Z.eqb (o_Chk x) 1); simpl; lia.
Qed.

(** Unchecking a row: after [setData] with [Qt.Unchecked] on a valid row,
    that row reads [Qt.Unchecked] and every other row reads as it did; and
    when the row was the one checked row, [list_checked_tools] returns the
    empty list. *)
Theorem uncheck_clears_only_that_row (m : list offset_rec) (row : nat) (r : offset_rec) :
  m !! row = Some r ->
  (forall j x,
     m !! j = Some x ->
     exists x',
       setData row 1 Qt_Unchecked CheckStateRole m !! j = Some x'
       /\ MyOffsetModel_data_check x'
          = (if decide (j = row) then Qt_Unchecked else MyOffsetModel_data_check x)
       /\ o_idn x' = o_idn x /\ row_line x' = row_line x)
  /\ (o_Chk r = 1 -> length (list_checked_tools m) = 1%nat ->
      list_checked_tools (setData row 1 Qt_Unchecked CheckStateRole m) = []).
Proof.
  intros Hrow. rewrite (setData_unchecked_alter m row r Hrow). split.
  - intros j x Hx. destruct (decide (j = row)) as [->|Hne].
    + rewrite list_lookup_alter_eq, Hx. eexists. split; [reflexivity|].
      by destruct x.
    + rewrite list_lookup_alter_ne by done. by exists x.
  - intros Hchk Hone. apply length_zero_iff_nil.
    pose proof (list_checked_tools_uncheck_one m row r Hrow Hchk). lia.
Qed.

Lemma uncheck_clears_only_that_row_witness :
  let m := [mkOffset 1 0 4 4 0 0 0 0 0 0 0 0 0 0 0 0 0 "New tool";
            mkOffset 2 1 7 7 0 0 0 0 0 0 0 0 0 0 0 0 0 "New tool"] in
  m !! 1%nat = Some (mkOffset 2 1 7 7 0 0 0 0 0 0 0 0 0 0 0 0 0 "New tool")
  /\ list_checked_tools m = [7]
  /\ list_checked_tools (setData 1 1 Qt_Unchecked CheckStateRole m) = [].
Proof.
  intros m. split; [reflexivity|]. split; [reflexivity|].
  exact (proj2 (uncheck_clears_only_that_row m 1 _ eq_refl) eq_refl eq_refl).
Defined.

(** ** Further properties: tool icons *)

(** Setting and getting a tool icon: when some offsets row is checked and
    the tool number of the first checked row has a tools row, the non-empty
    icon name [set_tool_icon] stores is the one [get_tool_icon] returns for
    that tool number; the icon of every other tool number is as before, and
    neither the offsets model nor the tool numbers of the tools model
    change. *)
Theorem set_tool_icon_then_get (w : Tool_Database) (icon : string) (tno : Z)
    (rest : list Z) :
  get_checked_tools w = tno :: rest ->
  is_Some (tool_get_index tno (tool_model w)) ->
  icon <> "" ->
  get_tool_icon tno (set_tool_icon icon w) = Some icon
  /\ (forall t, t <> tno -> get_tool_icon t (set_tool_icon icon w) = get_tool_icon t w)
  /\ offset_model (set_tool_icon icon w) = offset_model w
  /\ map t_TOOL (tool_model (set_tool_icon icon w)) = map t_TOOL (tool_model w).
Proof.
  intros Hchk [row Hrow] Hicon.
  destruct (tool_get_index_Some _ _ _ Hrow) as (r & Hr & Ht).
  assert (Hset : set_tool_icon icon w
                 = with_tool_model (alter (set_ICON icon) row (tool_model w)) w).
  { unfold set_tool_icon. by rewrite Hchk, Hrow. }
  assert (Htools : map t_TOOL (alter (set_ICON icon) row (tool_model w))
                   = map t_TOOL (tool_model w)).
  { apply map_alter_same. intros x. reflexivity. }
  rewrite Hset. cbn [offset_model tool_model with_tool_model].
  split; [|split; [|split; [reflexivity | exact Htools]]].
  - unfold get_tool_icon. cbn [tool_model with_tool_model].
    rewrite (tool_get_index_map _ _ _ Htools), Hrow, list_lookup_alter_eq, Hr.
    simpl. destruct (String.eqb_spec icon ""); [done | reflexivity].
  - intros t Hne. unfold get_tool_icon. cbn [tool_model with_tool_model].
    rewrite (tool_get_index_map _ _ _ Htools).
    destruct (tool_get_index t (tool_model w)) as [i|] eqn:Hi; [|done].
    destruct (tool_get_index_Some _ _ _ Hi) as (x & Hx & Hxt).
    rewrite list_lookup_alter_ne; [done|]. intros ->. congruence.
Qed.

Lemma set_tool_icon_then_get_witness :
  let w := with_offset_model
             (setData 1 1 Qt_Checked CheckStateRole
                (offset_model
                   (update [mkLine 1 1 0 0 0 0 0 0 0 0 0 0 0 0 0 "New tool";
                            mkLine 2 2 0 0 0 0 0 0 0 0 0 0 0 0 0 "New tool"] init)))
             (update [mkLine 1 1 0 0 0 0 0 0 0 0 0 0 0 0 0 "New tool";
                      mkLine 2 2 0 0 0 0 0 0 0 0 0 0 0 0 0 "New tool"] init) in
  get_checked_tools w = [2]
  /\ get_tool_icon 2 w = None
  /\ get_tool_icon 2 (set_tool_icon "drill.png" w) = Some "drill.png"
  /\ get_tool_icon 1 (set_tool_icon "drill.png" w) = None.
Proof.
  intros w. split; [reflexivity|]. split; [reflexivity|].
  assert (Hs : is_Some (tool_get_index 2 (tool_model w))) by (by eexists).
  assert (Hi : "drill.png" <> "") by discriminate.
  destruct (set_tool_icon_then_get w "drill.png" 2 [] eq_refl Hs Hi) as (H1 & H2 & _).
  split; [exact H1|]. rewrite (H2 1); [reflexivity | discriminate].
Defined.

(** ** Further properties: what reconciliation keeps *)

Lemma next_idn_above_autoinc (w : Tool_Database) : autoinc w < next_idn w.
Proof.
  unfold next_idn. induction (offset_model w) as [|x m IH]; simpl; lia.
Qed.

Lemma row_key_alter_overwrite (d : tool_line) (i : nat) (m : list offset_rec)
    (r : offset_rec) :
  m !! i = Some r -> o_Tool r = l_Tool d ->
  map row_key (alter (overwrite d) i m) = map row_key m.
Proof.
  intros Hr Ht. apply list_eq. intros j. rewrite !list_lookup_fmap.
  destruct (decide (j = i)) as [->|Hne].
  - rewrite list_lookup_alter_eq, Hr. simpl. unfold row_key. simpl. by rewrite Ht.
  - by rewrite list_lookup_alter_ne.
Qed.

(** The first loop of [update] leaves the surrogate id, check flag and tool
    number of every row alone and appends rows for tool numbers it did not
    find. *)
Lemma fold_update_line_keys (l : list tool_line) :
  forall u : Tool_Database,
    exists added,
      map row_key (offset_model (fold_left update_line l u))
      = (map row_key (offset_model u) ++ added)%list
      /\ Forall (fun k => snd (fst k) = 0 /\ snd k ∈ map l_Tool l
                          /\ (snd k ∉ map o_Tool (offset_model u))
                          /\ autoinc u < fst (fst k)) added.
Proof.
  induction l as [|d l IH]; intros u.
  - exists []. simpl. by rewrite app_nil_r.
  - simpl fold_left. destruct (IH (update_line u d)) as (added & Hk & Hall).
    destruct (get_index (l_Tool d) (offset_model u)) as [i|] eqn:Hi.
    + destruct (get_index_Some _ _ _ Hi) as (r & Hr & Ht & _).
      assert (Hom : map row_key (offset_model (update_line u d))
                    = map row_key (offset_model u)).
      { rewrite (update_line_found _ _ _ Hi). cbn [offset_model with_offset_model].
        by apply (row_key_alter_overwrite d i _ r). }
      assert (Htl : map o_Tool (offset_model (update_line u d))
                    = map o_Tool (offset_model u)).
      { rewrite update_line_tools, Hi. by rewrite app_nil_r. }
      assert (Hai : autoinc (update_line u d) = autoinc u).
      { by rewrite (update_line_found _ _ _ Hi). }
      exists added. rewrite Hk, Hom. split; [done|].
      eapply Forall_impl; [exact Hall|]. intros k (H1 & H2 & H3 & H4).
      rewrite Htl in H3. rewrite Hai in H4. repeat split; try done.
      simpl. apply elem_of_cons. by right.
    + assert (Hu : update_line u d
                   = addrow d (with_tool_list (tool_list u ++ [l_Tool d]) u))
        by (by apply update_line_absent).
      set (pkey := next_idn (with_tool_list (tool_list u ++ [l_Tool d]) u)) in *.
      assert (Hom : offset_model (update_line u d)
                    = (offset_model u ++ [new_offset_row pkey d])%list).
      { rewrite Hu. reflexivity. }
      assert (Hai : autoinc (update_line u d) = pkey) by (by rewrite Hu).
      assert (Hpk : autoinc u < pkey).
      { subst pkey. apply (next_idn_above_autoinc (with_tool_list _ u)). }
      exists (row_key (new_offset_row pkey d) :: added).
      rewrite Hk, Hom, map_app. simpl. rewrite <- app_assoc. split; [done|].
      constructor.
      * simpl. repeat split; try done.
        -- apply list_elem_of_here.
        -- by apply get_index_None.
      * eapply Forall_impl; [exact Hall|]. intros k (H1 & H2 & H3 & H4).
        rewrite Hom, map_app in H3. rewrite Hai in H4. repeat split; try done.
        -- simpl. apply elem_of_cons. by right.
        -- intros Hin. apply H3, elem_of_app. by left.
        -- lia.
Qed.

Lemma row_key_filter (keep : Z -> bool) (m : list offset_rec) :
  map row_key (List.filter (fun r => keep (o_Tool r)) m)
  = List.filter (fun k => keep (snd k)) (map row_key m).
Proof.
  induction m as [|x m IH]; simpl; [done|].
  destruct (keep (o_Tool x)); simpl; by rewrite IH.
Qed.

Lemma filter_all_kept {A} (f : A -> bool) (l : list A) :
  Forall (fun x => f x = true) l -> List.filter f l = l.
Proof.
  induction 1 as [|x l Hx _ IH]; simpl; [done|]. by rewrite Hx, IH.
Qed.

Lemma filter_none_kept {A} (f : A -> bool) (l : list A) :
  Forall (fun x => f x = false) l -> List.filter f l = [].
Proof.
  induction 1 as [|x l Hx _ IH]; simpl; [done|]. by rewrite Hx, IH.
Qed.

Lemma list_checked_tools_keys (m : list offset_rec) :
  list_checked_tools m
  = map snd (List.filter (fun k => Z.eqb (snd (fst k)) 1) (map row_key m)).
Proof.
  induction m as [|x m IH]; simpl; [done|].
  destruct (Z.eqb (o_Chk x) 1); simpl; by rewrite IH.
Qed.

Lemma filter_filter_comm {A} (f g : A -> bool) (l : list A) :
  List.filter f (List.filter g l) = List.filter g (List.filter f l).
Proof.
  induction l as [|x l IH]; simpl; [done|].
  destruct (f x) eqn:Hf, (g x) eqn:Hg; simpl; rewrite ?Hf, ?Hg, IH; done.
Qed.

Lemma map_snd_filter (keep : Z -> bool) (ks : list (Z * Z * Z)) :
  map snd (List.filter (fun k => keep (snd k)) ks) = List.filter keep (map snd ks).
Proof.
  induction ks as [|k ks IH]; simpl; [done|].
  destruct (keep (snd k)); simpl; by rewrite IH.
Qed.

(** What [update] keeps, from any widget state: the rows whose tool number
    is in the tool array stay, in their order, each with its surrogate id
    and its check flag; behind them come the rows added, each unchecked, for
    a tool number of the array that had no row, under a surrogate id above
    every one handed out before.  So the checked tools afterwards are the
    checked tools from before that are still in the tool array. *)
Theorem update_keeps_surviving_rows (l : list tool_line) (w : Tool_Database) :
  (exists added,
     map row_key (offset_model (update l w))
     = (List.filter (fun k => py_in (snd k) (map l_Tool l))
          (map row_key (offset_model w)) ++ added)%list
     /\ Forall (fun k => snd (fst k) = 0 /\ snd k ∈ map l_Tool l
                         /\ (snd k ∉ map o_Tool (offset_model w))
                         /\ autoinc w < fst (fst k)) added)
  /\ list_checked_tools (offset_model (update l w))
     = List.filter (fun t => py_in t (map l_Tool l))
         (list_checked_tools (offset_model w)).
Proof.
  destruct (update_offset_model l w) as [Hm _].
  destruct (fold_update_line_keys l (with_tool_list [] w)) as (added & Hk & Hall).
  cbn [offset_model autoinc with_tool_list] in Hk, Hall.
  assert (Hkeys : map row_key (offset_model (update l w))
                  = (List.filter (fun k => py_in (snd k) (map l_Tool l))
                       (map row_key (offset_model w)) ++ added)%list).
  { rewrite Hm, (row_key_filter (fun t => py_in t (map l_Tool l))), Hk.
    rewrite List.filter_app. f_equal. apply filter_all_kept.
    eapply Forall_impl; [exact Hall|]. intros k (_ & H & _). by apply py_in_elem_of. }
  split; [by exists added|].
  rewrite !list_checked_tools_keys, Hkeys, List.filter_app, map_app.
  rewrite (filter_none_kept _ added).
  - simpl. rewrite app_nil_r, filter_filter_comm.
    apply (map_snd_filter (fun t => py_in t (map l_Tool l))).
  - eapply Forall_impl; [exact Hall|]. intros k (H & _). by rewrite H.
Qed.

Lemma update_keeps_surviving_rows_witness :
  let w := with_offset_model
             [mkOffset 1 0 1 1 0 0 0 0 0 0 0 0 0 0 0 0 0 "New tool";
              mkOffset 2 1 2 2 0 0 0 0 0 0 0 0 0 0 0 0 0 "New tool";
              mkOffset 5 0 3 3 0 0 0 0 0 0 0 0 0 0 0 0 0 "New tool"]
             (with_autoinc 5 init) in
  let l := [mkLine 7 7 0 0 0 0 0 0 0 0 0 0 0 0 0 "New tool";
            mkLine 2 9 0 0 0 0 0 0 0 0 0 0 0 0 0 "reamer";
            mkLine 3 3 0 0 0 0 0 0 0 0 0 0 0 0 0 "New tool"] in
  map row_key (offset_model (update l w)) = [(2, 1, 2); (5, 0, 3); (6, 0, 7)]
  /\ list_checked_tools (offset_model (update l w)) = [2].
Proof.
  intros w l. split; [reflexivity|].
  rewrite (proj2 (update_keeps_surviving_rows l w)). reflexivity.
Defined.

(** ** Further properties: reconcile, then export *)

Lemma save_table_row_line (w : Tool_Database) :
  save_table w
  = map (fun r => map (display (metric_display w)) (line_values (row_line r)))
      (offset_model w).
Proof. unfold save_table. apply map_ext. intros r. reflexivity. Qed.

Lemma row_line_overwrite (d : tool_line) (r : offset_rec) :
  overwrite d r = r -> row_line r = d.
Proof. intros <-. by destruct d. Qed.

Lemma row_line_tool (r : offset_rec) : l_Tool (row_line r) = o_Tool r.
Proof. reflexivity. Qed.

Lemma last_line_In (l : list tool_line) (t : Z) (d : tool_line) :
  last_line l t = Some d -> d ∈ l /\ l_Tool d = t.
Proof.
  induction l as [|x l IH]; simpl; [done|].
  destruct (last_line l t) as [y|].
  - intros H. inversion H; subst y. destruct (IH eq_refl) as [H1 H2].
    split; [by apply elem_of_cons; right | done].
  - destruct (Z.eqb_spec (l_Tool x) t) as [Heq|Hne]; [|done].
    intros H. inversion H; subst x. split; [apply list_elem_of_here | done].
Qed.

Lemma last_line_NoDup (l : list tool_line) (d : tool_line) :
  NoDup (map l_Tool l) -> d ∈ l -> last_line l (l_Tool d) = Some d.
Proof.
  induction l as [|x l IH]; intros Hnd Hd; [by apply elem_of_nil in Hd|].
  simpl in Hnd. apply NoDup_cons in Hnd. destruct Hnd as [Hx Hnd].
  apply elem_of_cons in Hd. simpl. destruct Hd as [->|Hd].
  - destruct (last_line l (l_Tool x)) as [y|] eqn:Hy.
    + exfalso. apply Hx. apply last_line_is_Some. by eexists.
    + by rewrite Z.eqb_refl.
  - by rewrite (IH Hnd Hd).
Qed.

Lemma update_line_tools_NoDup (u : Tool_Database) (d : tool_line) :
  NoDup (map o_Tool (offset_model u)) ->
  NoDup (map o_Tool (offset_model (update_line u d))).
Proof.
  intros H. rewrite update_line_tools.
  destruct (get_index (l_Tool d) (offset_model u)) eqn:Hi.
  - by rewrite app_nil_r.
  - apply NoDup_app. split; [done|]. split; [|apply NoDup_singleton].
    intros x Hx Hx'. apply list_elem_of_singleton in Hx'. subst x.
    by apply get_index_None in Hi.
Qed.

Lemma tools_filter (keep : Z -> bool) (m : list offset_rec) :
  map o_Tool (List.filter (fun r => keep (o_Tool r)) m)
  = List.filter keep (map o_Tool m).
Proof.
  induction m as [|x m IH]; simpl; [done|].
  destruct (keep (o_Tool x)); simpl; by rewrite IH.
Qed.

Lemma NoDup_List_filter {A} (f : A -> bool) (l : list A) :
  NoDup l -> NoDup (List.filter f l).
Proof.
  induction 1 as [|x l Hx Hnd IH]; simpl; [constructor|].
  destruct (f x); [|done]. constructor; [|done].
  intros Hin. apply Hx. apply list_elem_of_In in Hin. apply filter_In in Hin.
  apply list_elem_of_In. tauto.
Qed.

Lemma update_tools_NoDup (l : list tool_line) (w : Tool_Database) :
  NoDup (map o_Tool (offset_model w)) ->
  NoDup (map o_Tool (offset_model (update l w))).
Proof.
  intros H. destruct (update_offset_model l w) as [Hm _]. rewrite Hm.
  rewrite (tools_filter (fun t => py_in t (map l_Tool l))).
  apply NoDup_List_filter.
  assert (H0 : NoDup (map o_Tool (offset_model (with_tool_list [] w)))) by exact H.
  revert H0. generalize (with_tool_list [] w). clear.
  induction l as [|d l IH]; intros u Hu; [exact Hu|].
  simpl. apply IH. by apply update_line_tools_NoDup.
Qed.

(** Reconcile, then export: when the tool numbers of the tool array are
    distinct and so are those of the offsets model before, [save_table]
    after [update] returns the lines of the tool array, each as the sequence
    of the display values of its sixteen entries, in the row order of the
    offsets model: a rearrangement of the array, nothing lost and nothing
    added. *)
Theorem update_then_save_table (l : list tool_line) (w : Tool_Database) :
  NoDup (map l_Tool l) ->
  NoDup (map o_Tool (offset_model w)) ->
  save_table (update l w)
  ≡ₚ map (fun d => map (display (metric_display w)) (line_values d)) l.
Proof.
  intros Hl Hw. rewrite save_table_row_line.
  destruct (update_frame l w) as (-> & _).
  rewrite <- (map_map row_line
                (fun d => map (display (metric_display w)) (line_values d))).
  apply Permutation_map.
  destruct (update_offset_model l w) as [Hm _].
  assert (Hset : settled l (offset_model (update l w))).
  { rewrite Hm. apply settled_filter, fold_update_line_settles. }
  pose proof (update_tools_NoDup l w Hw) as Hnd.
  apply NoDup_Permutation.
  - apply (NoDup_fmap_1 l_Tool). change (l_Tool <$> ?x) with (map l_Tool x).
    rewrite map_map. exact Hnd.
  - by apply (NoDup_fmap_1 l_Tool).
  - intros d. split.
    + intros Hd. apply list_elem_of_fmap in Hd. destruct Hd as (r & -> & Hr).
      assert (Ht : o_Tool r ∈ map l_Tool l).
      { apply (update_offsets_tool_set l w). apply list_elem_of_fmap. by exists r. }
      apply last_line_is_Some in Ht. destruct Ht as [d Hd].
      destruct (last_line_In _ _ _ Hd) as [Hin Hdt].
      destruct (Hset _ _ Hd) as (i & r0 & Hi & Hr0 & Hov).
      destruct (get_index_Some _ _ _ Hi) as (r1 & Hr1 & Ht1 & _).
      assert (r1 = r0) as -> by congruence.
      apply list_elem_of_lookup in Hr. destruct Hr as [j Hj].
      assert (j = i) as ->.
      { eapply NoDup_lookup; [exact Hnd | |].
        - change (map o_Tool ?x) with (o_Tool <$> x).
          rewrite list_lookup_fmap, Hj. reflexivity.
        - change (map o_Tool ?x) with (o_Tool <$> x).
          rewrite list_lookup_fmap, Hr0. simpl. by rewrite Ht1. }
      assert (r = r0) as -> by congruence.
      by rewrite (row_line_overwrite d r0 Hov).
    + intros Hd. pose proof (last_line_NoDup l d Hl Hd) as Hlast.
      destruct (Hset _ _ Hlast) as (i & r & _ & Hr & Hov).
      apply list_elem_of_fmap. exists r. split.
      * symmetry. by apply row_line_overwrite.
      * by eapply list_elem_of_lookup_2.
Qed.

Lemma update_then_save_table_witness :
  let w := update [mkLine 3 3 0 0 0 0 0 0 0 0 0 0 0 0 0 "New tool";
                   mkLine 1 1 0 0 0 0 0 0 0 0 0 0 0 0 0 "New tool"] init in
  let l := [mkLine 1 4 0 0 0 0 0 0 0 0 0 0 0 0 0 "drill";
            mkLine 2 2 0 0 0 0 0 0 0 0 0 0 0 0 0 "New tool";
            mkLine 3 3 0 0 0 0 0 0 0 0 0 0 0 0 0 "New tool"] in
  NoDup (map l_Tool l)
  /\ NoDup (map o_Tool (offset_model w))
  /\ map (fun line => line !! 0%nat) (save_table (update l w))
     = [Some (VInt 3); Some (VInt 1); Some (VInt 2)]
  /\ save_table (update l w)
     ≡ₚ map (fun d => map (display (metric_display w)) (line_values d)) l.
Proof.
  intros w l.
  assert (H1 : NoDup (map l_Tool l)).
  { apply (bool_decide_unpack _). vm_compute. exact I. }
  assert (H2 : NoDup (map o_Tool (offset_model w))).
  { apply (bool_decide_unpack _). vm_compute. exact I. }
  split; [exact H1|]. split; [exact H2|]. split; [reflexivity|].
  exact (update_then_save_table l w H1 H2).
Defined.

(** ** Further properties: stopping and restarting the timer *)

Lemma total_time_time (t : timer) : total_time t = total_time (mkTimer true 0 (time t)).
Proof. reflexivity. Qed.

Lemma reseed_within_a_second (digits : nat) :
  digits = 3%nat \/ digits = 4%nat ->
  forallb (fun t => match reseed digits t with
                    | Some t' => Z.leb (t - 1) t' && Z.leb t' t
                    | None => false
                    end) (seqZ 0 3601) = true.
Proof. intros [->| ->]; vm_compute; reflexivity. Qed.

(** Stop, then start, within the first hour of use: when the timer runs
    with 0 to 3600 seconds counted for a tool that has its rows,
    [stop_tool_timer] returns with the minutes written, and a
    [start_tool_timer] right after returns with the timer running again and
    seeded with the same number of seconds or one less (the minutes are
    written with three decimals and read back truncated). *)
Theorem stop_then_start_loses_at_most_a_second (w : Tool_Database) (row : nat)
    (r : tool_rec) :
  running (timer_dict w) = true ->
  tool (timer_dict w) <> 0 ->
  0 <= time (timer_dict w) <= 3600 ->
  get_index (tool (timer_dict w)) (offset_model w) = Some row ->
  tool_model w !! row = Some r ->
  exists w1 w2,
    stop_tool_timer w = Returned w1
    /\ start_tool_timer w1 = Returned w2
    /\ running (timer_dict w2) = true
    /\ tool (timer_dict w2) = tool (timer_dict w)
    /\ time (timer_dict w) - 1 <= time (timer_dict w2) <= time (timer_dict w).
Proof.
  intros Hrun Hne Ht Hidx Hrow.
  set (digits := if metric_display w then 3%nat else 4%nat).
  assert (Hd : digits = 3%nat \/ digits = 4%nat).
  { subst digits. destruct (metric_display w); [by left | by right]. }
  pose proof (reseed_within_a_second digits Hd) as Hall.
  rewrite forallb_forall in Hall.
  specialize (Hall (time (timer_dict w))).
  assert (Hin : In (time (timer_dict w)) (seqZ 0 3601)).
  { apply list_elem_of_In, elem_of_seqZ. lia. }
  specialize (Hall Hin). unfold reseed in Hall.
  rewrite <- total_time_time in Hall.
  destruct (total_time (timer_dict w)) as [s|] eqn:Hs; [|discriminate Hall].
  cbn [mbind option_bind] in Hall.
  destruct (Py.float_of_string s) as [x|] eqn:Hx; [|discriminate Hall].
  cbn [mbind option_bind] in Hall.
  destruct (Py.float_of_string (Py.format_fixed digits x)) as [p|] eqn:Hp;
    [|discriminate Hall].
  cbn [mbind option_bind] in Hall.
  destruct (Py.int_of_float (p * 60)%float) as [t'|] eqn:Ht'; [|discriminate Hall].
  apply andb_true_iff in Hall. destruct Hall as [H1 H2].
  apply Z.leb_le in H1. apply Z.leb_le in H2.
  set (w1 := with_tool_model (alter (set_TIME x) row (tool_model w))
               (with_timer_dict (set_running false (timer_dict w)) w)).
  assert (Hstop : stop_tool_timer w = Returned w1).
  { unfold stop_tool_timer. rewrite Hrun. cbn [negb].
    cbn [offset_model with_timer_dict timer_dict tool_model set_running tool].
    rewrite Hidx.
    change (mkTimer false (tool (timer_dict w)) (time (timer_dict w)))
      with (set_running false (timer_dict w)).
    rewrite total_time_set_running, Hs. unfold tool_setData_TIME. rewrite Hx.
    reflexivity. }
  assert (Hseed : seed_time (metric_display w1) row (tool_model w1) = Some t').
  { subst w1. cbn [metric_display tool_model with_tool_model with_timer_dict].
    unfold seed_time. rewrite list_lookup_alter_eq, Hrow.
    cbn [fmap option_fmap option_map mbind option_bind].
    unfold MyToolModel_data_TIME. cbn [t_TIME set_TIME].
    fold digits. rewrite Hp. cbn [mbind option_bind]. exact Ht'. }
  exists w1, (with_timer_dict (set_time t' (set_running true (timer_dict w1))) w1).
  split; [exact Hstop|]. split.
  - unfold start_tool_timer.
    assert (Htool : tool (timer_dict w1) = tool (timer_dict w)) by reflexivity.
    rewrite Htool. destruct (Z.eqb_spec (tool (timer_dict w)) 0); [done|].
    cbn [offset_model with_timer_dict metric_display tool_model timer_dict].
    assert (Hom : offset_model w1 = offset_model w) by reflexivity.
    rewrite Hom, Hidx, Hseed. reflexivity.
  - cbn. repeat split; lia.
Qed.

Lemma stop_then_start_loses_at_most_a_second_witness :
  let w := with_timer_dict (mkTimer true 1 50)
             (update [mkLine 1 1 0 0 0 0 0 0 0 0 0 0 0 0 0 "New tool"] init) in
  exists w1 w2,
    stop_tool_timer w = Returned w1
    /\ map (MyToolModel_data_TIME true) (tool_model w1) = ["0.833"]
    /\ start_tool_timer w1 = Returned w2
    /\ time (timer_dict w2) = 49
    /\ 50 - 1 <= time (timer_dict w2) <= 50.
Proof.
  intros w.
  destruct (stop_then_start_loses_at_most_a_second w 0
              (mkTool 1 1 0 None None None None None None None))
    as (w1 & w2 & Hs & Hst & _ & _ & Hb);
    [reflexivity | discriminate | simpl; lia | reflexivity | reflexivity |].
  exists w1, w2. split; [exact Hs|].
  assert (Hw1 : w1 = state_of (stop_tool_timer w)) by (by rewrite Hs).
  assert (Hw2 : w2 = state_of (start_tool_timer w1)) by (by rewrite Hst).
  split; [rewrite Hw1; vm_compute; reflexivity|].
  split; [exact Hst|].
  split; [rewrite Hw2, Hw1; vm_compute; reflexivity | exact Hb].
Defined.

(** ** Further properties: renumbering a tool in the dialog *)

Lemma get_index_NoDup (m : list offset_rec) (row : nat) (r : offset_rec) :
  NoDup (map o_Tool m) -> m !! row = Some r -> get_index (o_Tool r) m = Some row.
Proof.
  intros Hnd Hr. destruct (get_index (o_Tool r) m) as [i|] eqn:Hi.
  - destruct (get_index_Some _ _ _ Hi) as (x & Hx & Hxt & _). f_equal.
    eapply NoDup_lookup; [exact Hnd | |].
    + change (map o_Tool m) with (o_Tool <$> m). rewrite list_lookup_fmap, Hx.
      simpl. by rewrite Hxt.
    + change (map o_Tool m) with (o_Tool <$> m). by rewrite list_lookup_fmap, Hr.
  - exfalso. apply get_index_None in Hi. apply Hi. apply list_elem_of_fmap.
    exists r. split; [done|]. by eapply list_elem_of_lookup_2.
Qed.

Lemma tool_get_index_offsets (tno : Z) (om : list offset_rec) (tm : list tool_rec) :
  map t_TOOL tm = map o_Tool om -> tool_get_index tno tm = get_index tno om.
Proof.
  revert tm. induction om as [|o om IH]; intros [|t tm] H; simpl in H; try done.
  inversion H as [[Ht Hm]]. simpl. rewrite Ht. by rewrite (IH tm Hm).
Qed.

(** Renumbering a tool through the offsets dialog: when the two models are
    aligned and the tool numbers of the offsets model are distinct,
    accepting the dialog on a valid row with a new number returns, puts that
    number in the Tool cell of the row and in the TOOL cell of the tools row
    with the same row number, leaves every other tool number as it was, and
    keeps the models aligned. *)
Theorem callOffsetDialog_Tool_keeps_aligned (w : Tool_Database) (row : nat)
    (r : offset_rec) (ret_val : Z) :
  aligned w ->
  NoDup (map o_Tool (offset_model w)) ->
  offset_model w !! row = Some r ->
  exists w',
    callOffsetDialog_Tool row ret_val w = Returned w'
    /\ aligned w'
    /\ map o_Tool (offset_model w') = <[row := ret_val]> (map o_Tool (offset_model w))
    /\ map t_TOOL (tool_model w') = <[row := ret_val]> (map t_TOOL (tool_model w))
    /\ map o_idn (offset_model w') = map o_idn (offset_model w)
    /\ get_tool_list w'
       = map (fun item => if Z.eqb item (o_Tool r) then ret_val else item)
           (get_tool_list w).
Proof.
  intros [Hf Hnd] Htools Hr.
  destruct (paired_tools _ _ Hf) as [HT _].
  assert (Hidx : tool_get_index (o_Tool r) (tool_model w) = Some row).
  { rewrite (tool_get_index_offsets _ _ _ HT). by apply get_index_NoDup. }
  unfold callOffsetDialog_Tool. rewrite Hr.
  cbn [tool_model tool_list offset_model with_offset_model with_tool_list].
  unfold update_tool_no. rewrite Hidx, setData_edit.
  eexists. split; [reflexivity|].
  cbn [offset_model tool_model tool_list with_tool_model with_offset_model
       with_tool_list get_tool_list].
  split; [split|].
  - apply Forall2_alter; [done|]. intros x y _ _ [H1 H2]. split; [by destruct x|].
    by destruct x.
  - cbn [offset_model tool_model with_tool_model with_offset_model with_tool_list].
    rewrite map_alter_same; [done|]. intros x. by destruct x.
  - assert (Ha : forall (A : Type) (f : A -> Z) (g : A -> A) (m : list A),
               (forall x, f (g x) = ret_val) ->
               map f (alter g row m) = <[row := ret_val]> (map f m)).
    { intros A f g m Hg. rewrite list_insert_alter.
      change (map f ?x) with (f <$> x). apply list_fmap_alter.
      apply Forall_forall. intros x _. apply Hg. }
    split; [apply Ha; intros x; by destruct x|].
    split; [apply Ha; intros x; by destruct x|].
    split; [|reflexivity].
    apply map_alter_same. intros x. by destruct x.
Qed.

Lemma callOffsetDialog_Tool_keeps_aligned_witness :
  let w := update [mkLine 1 1 0 0 0 0 0 0 0 0 0 0 0 0 0 "New tool";
                   mkLine 2 2 0 0 0 0 0 0 0 0 0 0 0 0 0 "New tool"] init in
  exists w',
    callOffsetDialog_Tool 1 8 w = Returned w'
    /\ aligned w'
    /\ map o_Tool (offset_model w') = [1; 8]
    /\ map t_TOOL (tool_model w') = [1; 8]
    /\ get_tool_list w' = [1; 8].
Proof.
  intros w.
  assert (Ha : aligned w).
  { split; [|apply (bool_decide_unpack _); vm_compute; exact I].
    vm_compute. repeat constructor. }
  assert (Hn : NoDup (map o_Tool (offset_model w))).
  { apply (bool_decide_unpack _). vm_compute. exact I. }
  destruct (callOffsetDialog_Tool_keeps_aligned w 1 _ 8 Ha Hn eq_refl)
    as (w' & H1 & H2 & H3 & H4 & _ & H6).
  exists w'. split; [exact H1|]. split; [exact H2|].
  split; [rewrite H3; reflexivity|]. split; [rewrite H4; reflexivity|].
  rewrite H6. reflexivity.
Defined.

(** ** Further properties: reconciliation and the tools rows *)

Lemma update_line_tool_model (u : Tool_Database) (d : tool_line) :
  exists added,
    tool_model (update_line u d) = (tool_model u ++ added)%list
    /\ Forall (fun t => exists pkey,
                 t = mkTool pkey (l_Tool d) 0 None None None None None None None) added.
Proof.
  unfold update_line. cbn [offset_model with_tool_list].
  destruct (get_index (l_Tool d) (offset_model u)).
  - exists []. cbn. by rewrite app_nil_r.
  - unfold addrow, tool_addrow.
    cbn [tool_model with_tool_model with_autoinc with_offset_model with_tool_list].
    destruct (existsb _ _).
    + exists []. by rewrite app_nil_r.
    + eexists [_]. split; [reflexivity|]. constructor; [by eexists | constructor].
Qed.

Lemma fold_update_line_tool_model (l : list tool_line) :
  forall u : Tool_Database,
    exists added,
      tool_model (fold_left update_line l u) = (tool_model u ++ added)%list
      /\ Forall (fun t => exists pkey tno,
                   tno ∈ map l_Tool l
                   /\ t = mkTool pkey tno 0 None None None None None None None) added.
Proof.
  induction l as [|d l IH]; intros u.
  - exists []. simpl. by rewrite app_nil_r.
  - simpl fold_left. destruct (IH (update_line u d)) as (a2 & H2 & Ha2).
    destruct (update_line_tool_model u d) as (a1 & H1 & Ha1).
    exists (a1 ++ a2)%list. rewrite H2, H1, <- app_assoc. split; [done|].
    apply Forall_app. split.
    + eapply Forall_impl; [exact Ha1|]. intros t [pkey ->].
      exists pkey, (l_Tool d). split; [apply list_elem_of_here | done].
    + eapply Forall_impl; [exact Ha2|]. intros t (pkey & tno & Hin & ->).
      exists pkey, tno. split; [by apply elem_of_cons; right | done].
Qed.

Lemma fold_delrow_tool_model_elem (dl : list Z) (u : Tool_Database) (x : tool_rec) :
  x ∈ tool_model (fold_left (fun w tno => delrow tno w) dl u) -> x ∈ tool_model u.
Proof.
  revert u. induction dl as [|t dl IH]; intros u H; [exact H|].
  simpl in H. apply IH in H. unfold delrow in H.
  destruct (get_index t (offset_model u)); [|exact H].
  cbn [tool_model with_tool_model with_offset_model] in H.
  rewrite (tool_select_perm _) in H.
  by eapply list_elem_of_delete_inv.
Qed.

(** Where the tools rows after [update] come from, in any widget state. *)
Lemma update_tool_model_origin (l : list tool_line) (w : Tool_Database) (x : tool_rec) :
  x ∈ tool_model (update l w) ->
  x ∈ tool_model w
  \/ exists pkey tno,
       tno ∈ map l_Tool l /\ x = mkTool pkey tno 0 None None None None None None None.
Proof.
  intros H. unfold update in H. apply fold_delrow_tool_model_elem in H.
  destruct (fold_update_line_tool_model l (with_tool_list [] w)) as (added & Hm & Ha).
  rewrite Hm in H. apply elem_of_app in H. destruct H as [H|H]; [by left|].
  right. rewrite Forall_forall in Ha. by apply Ha.
Qed.

(** Reconciliation never edits a tools row.  From any widget state, every
    tools row after [update] is a row from before, as it was, or a new row
    for a tool number of the tool array, with zero time and every other
    column null.  When every tool number of the offsets model is in the tool
    array, so that nothing is deleted, the tools model afterwards is the one
    from before, row for row, followed by such new rows. *)
Theorem update_keeps_tool_metadata (l : list tool_line) (w : Tool_Database) :
  (forall x, x ∈ tool_model (update l w) ->
     x ∈ tool_model w
     \/ exists pkey tno,
          tno ∈ map l_Tool l
          /\ x = mkTool pkey tno 0 None None None None None None None)
  /\ ((forall t, t ∈ map o_Tool (offset_model w) -> t ∈ map l_Tool l) ->
      exists added,
        tool_model (update l w) = (tool_model w ++ added)%list
        /\ Forall (fun x => exists pkey tno,
                     tno ∈ map l_Tool l
                     /\ x = mkTool pkey tno 0 None None None None None None None)
             added).
Proof.
  split; [apply update_tool_model_origin|].
  intros Hall. rewrite (update_without_deletion l w Hall).
  exact (fold_update_line_tool_model l (with_tool_list [] w)).
Qed.

Lemma update_keeps_tool_metadata_witness :
  let w := with_tool_model
             [mkTool 1 1 5 (Some 12000) None (Some 50%float) (Some 2) (Some 800)
                     (Some "Sandvik") (Some "drill.png");
              mkTool 2 2 1 None None None None None None None]
             (update [mkLine 1 1 0 0 0 0 0 0 0 0 0 0 0 0 0 "New tool";
                      mkLine 2 2 0 0 0 0 0 0 0 0 0 0 0 0 0 "New tool"] init) in
  let l := [mkLine 3 3 0 0 0 0 0 0 0 0 0 0 0 0 0 "New tool";
            mkLine 2 2 0 0 0 0 0 0 0 0 0 0 0 0 0 "New tool";
            mkLine 1 1 0 0 0 0 0 0 0 0 0 0 0 0 0 "New tool"] in
  (forall t, t ∈ map o_Tool (offset_model w) -> t ∈ map l_Tool l)
  /\ tool_model (update l w)
     = [mkTool 1 1 5 (Some 12000) None (Some 50%float) (Some 2) (Some 800)
               (Some "Sandvik") (Some "drill.png");
        mkTool 2 2 1 None None None None None None None;
        mkTool 3 3 0 None None None None None None None]
  /\ exists added, tool_model (update l w) = (tool_model w ++ added)%list.
Proof.
  intros w l.
  assert (Hall : forall t, t ∈ map o_Tool (offset_model w) -> t ∈ map l_Tool l).
  { intros t Ht. apply py_in_elem_of.
    change (map o_Tool (offset_model w)) with [1; 2] in Ht.
    apply elem_of_cons in Ht. destruct Ht as [->|Ht]; [reflexivity|].
    apply list_elem_of_singleton in Ht. subst t. reflexivity. }
  split; [exact Hall|]. split; [reflexivity|].
  destruct (proj2 (update_keeps_tool_metadata l w) Hall) as (added & Ha & _).
  by exists added.
Defined.

(** ** Further properties: the keys of the two models *)

Lemma keyed_same (w w' : Tool_Database) :
  map o_idn (offset_model w') = map o_idn (offset_model w) ->
  map t_idn (tool_model w') = map t_idn (tool_model w) ->
  autoinc w' = autoinc w ->
  keyed w -> keyed w'.
Proof.
  intros Ho Ht Ha (Hl & H1 & H2 & H3 & H4). unfold keyed. rewrite Ho, Ht, Ha.
  split; [|done].
  rewrite <- (length_map t_idn (tool_model w')), <- (length_map o_idn (offset_model w')).
  rewrite Ho, Ht, !length_map. exact Hl.
Qed.

Lemma tool_timer_tables (w : Tool_Database) :
  offset_model (tool_timer w) = offset_model w
  /\ tool_model (tool_timer w) = tool_model w
  /\ autoinc (tool_timer w) = autoinc w.
Proof.
  unfold tool_timer. cbn [timer_tenths with_timer_tenths].
  destruct (Z.eqb (timer_tenths w + 1) 10); [|done].
  cbn [timer_dict with_timer_tenths]. by destruct (running (timer_dict w)).
Qed.

Lemma start_tool_timer_tables (w : Tool_Database) :
  offset_model (state_of (start_tool_timer w)) = offset_model w
  /\ tool_model (state_of (start_tool_timer w)) = tool_model w
  /\ autoinc (state_of (start_tool_timer w)) = autoinc w.
Proof.
  unfold start_tool_timer. destruct (Z.eqb (tool (timer_dict w)) 0); [done|].
  cbn [offset_model with_timer_dict].
  destruct (get_index _ _); [|done].
  by destruct (seed_time _ _ _).
Qed.

Lemma stop_tool_timer_tables (w : Tool_Database) :
  offset_model (state_of (stop_tool_timer w)) = offset_model w
  /\ map t_idn (tool_model (state_of (stop_tool_timer w))) = map t_idn (tool_model w)
  /\ autoinc (state_of (stop_tool_timer w)) = autoinc w.
Proof.
  unfold stop_tool_timer. destruct (negb (running (timer_dict w))); [done|].
  cbn [offset_model with_timer_dict].
  destruct (get_index _ _) as [row|]; [|done].
  destruct (total_time _) as [s|]; [|done].
  cbn [state_of tool_model offset_model autoinc with_tool_model with_timer_dict].
  split; [done|]. split; [|done].
  unfold tool_setData_TIME. destruct (Py.float_of_string s); [|done].
  apply map_alter_same. intros r. reflexivity.
Qed.

Lemma setData_check_role_idn (row : nat) (v : value) (m : list offset_rec) :
  map o_idn (setData row 1 v CheckStateRole m) = map o_idn m.
Proof.
  assert (Hu : map o_idn (uncheck_all_tools m) = map o_idn m).
  { unfold uncheck_all_tools. rewrite map_map. apply map_ext. intros r.
    destruct (Z.eqb (o_Chk r) 1); [by destruct r | done]. }
  unfold setData, super_setData.
  destruct (valid_index row 1 m) eqn:Hv; [|done]. cbn [negb Nat.eqb andb].
  destruct (value_eqb v Qt_Checked).
  - destruct (valid_index row 1 (uncheck_all_tools m)); [|exact Hu].
    rewrite map_alter_same; [exact Hu|]. intros r. by destruct r.
  - destruct (value_eqb v Qt_Unchecked); [|done].
    apply map_alter_same. intros r. by destruct r.
Qed.

(** In a keyed widget the key of the next offsets row is new to the tools
    model: the insert of [MyToolModel.addrow] goes through. *)
Lemma keyed_tool_addrow (w : Tool_Database) (tno : Z) :
  keyed w ->
  tool_addrow (next_idn w) tno (tool_model w)
  = (tool_model w
     ++ [mkTool (next_idn w) tno 0 None None None None None None None])%list.
Proof.
  intros (_ & _ & _ & _ & H4). unfold tool_addrow.
  destruct (existsb _ _) eqn:He; [|done].
  exfalso. apply existsb_exists in He. destruct He as (t & Ht & Heq).
  apply Z.eqb_eq in Heq.
  assert (Hle : t_idn t <= autoinc w).
  { apply H4. apply list_elem_of_fmap. exists t. split; [done|].
    by apply list_elem_of_In. }
  assert (Hlt : autoinc w < next_idn w).
  { unfold next_idn. generalize (map o_idn (offset_model w)). intros ids.
    induction ids as [|x ids IH]; simpl; lia. }
  lia.
Qed.

Lemma next_idn_above (w : Tool_Database) :
  autoinc w < next_idn w /\ forall i, i ∈ map o_idn (offset_model w) -> i < next_idn w.
Proof.
  unfold next_idn. generalize (map o_idn (offset_model w)). intros ids.
  induction ids as [|x ids [IH1 IH2]]; simpl.
  - split; [lia|]. intros i Hi. by apply elem_of_nil in Hi.
  - split; [lia|]. intros i Hi. apply elem_of_cons in Hi. destruct Hi as [->|Hi]; [lia|].
    specialize (IH2 i Hi). lia.
Qed.

Lemma addrow_keyed (d : tool_line) (w : Tool_Database) : keyed w -> keyed (addrow d w).
Proof.
  intros Hk. pose proof (keyed_tool_addrow w (l_Tool d) Hk) as Hadd.
  destruct (next_idn_above w) as [Hlt Hfresh].
  destruct Hk as (Hl & H1 & H2 & H3 & H4). unfold keyed, addrow.
  cbn [offset_model tool_model autoinc with_tool_model with_autoinc with_offset_model].
  rewrite Hadd, !map_app, !length_app. simpl.
  split; [lia|]. split; [|split; [|split]].
  - apply NoDup_app. split; [done|]. split; [|apply NoDup_singleton].
    intros x Hx Hx'. apply list_elem_of_singleton in Hx'. subst x.
    specialize (Hfresh _ Hx). lia.
  - apply NoDup_app. split; [done|]. split; [|apply NoDup_singleton].
    intros x Hx Hx'. apply list_elem_of_singleton in Hx'. subst x.
    specialize (H4 _ Hx). lia.
  - intros i Hi. apply elem_of_app in Hi. destruct Hi as [Hi|Hi].
    + specialize (H3 _ Hi). lia.
    + apply list_elem_of_singleton in Hi. lia.
  - intros i Hi. apply elem_of_app in Hi. destruct Hi as [Hi|Hi].
    + specialize (H4 _ Hi). lia.
    + apply list_elem_of_singleton in Hi. lia.
Qed.

Lemma update_line_keyed (w : Tool_Database) (d : tool_line) :
  keyed w -> keyed (update_line w d).
Proof.
  intros Hk. destruct (get_index (l_Tool d) (offset_model w)) as [i|] eqn:Hi.
  - rewrite (update_line_found _ _ _ Hi). apply (keyed_same w); [| | |done].
    + cbn [offset_model with_offset_model]. apply map_alter_same. intros r. reflexivity.
    + reflexivity.
    + reflexivity.
  - rewrite (update_line_absent _ _ Hi). apply addrow_keyed.
    by apply (keyed_same w).
Qed.

Lemma delrow_keyed (tno : Z) (w : Tool_Database) : keyed w -> keyed (delrow tno w).
Proof.
  intros (Hl & H1 & H2 & H3 & H4). unfold delrow.
  destruct (get_index tno (offset_model w)) as [row|] eqn:Hrow; [|done].
  destruct (get_index_Some _ _ _ Hrow) as (r & Hr & _).
  apply lookup_lt_Some in Hr.
  unfold keyed, offset_select.
  cbn [offset_model tool_model autoinc with_tool_model with_offset_model].
  assert (Hp : map t_idn (tool_select (delete row (tool_model w)))
               ≡ₚ map t_idn (delete row (tool_model w))).
  { change (map t_idn ?m) with (t_idn <$> m). by rewrite tool_select_perm. }
  assert (Hso : sublist (map o_idn (delete row (offset_model w)))
                        (map o_idn (offset_model w))).
  { change (map o_idn ?m) with (o_idn <$> m). rewrite list_fmap_delete.
    apply sublist_delete. }
  assert (Hst : sublist (map t_idn (delete row (tool_model w)))
                        (map t_idn (tool_model w))).
  { change (map t_idn ?m) with (t_idn <$> m). rewrite list_fmap_delete.
    apply sublist_delete. }
  split; [|split; [|split; [|split]]].
  - rewrite (Permutation_length (tool_select_perm _)).
    rewrite !length_delete; [lia | | ]; apply lookup_lt_is_Some_2; lia.
  - eapply sublist_NoDup; [exact H1 | exact Hso].
  - rewrite Hp. eapply sublist_NoDup; [exact H2 | exact Hst].
  - intros i Hi. apply H3. eapply elem_of_sublist; [exact Hi | exact Hso].
  - intros i Hi. rewrite Hp in Hi. apply H4.
    eapply elem_of_sublist; [exact Hi | exact Hst].
Qed.

Lemma update_keyed (l : list tool_line) (w : Tool_Database) : keyed w -> keyed (update l w).
Proof.
  intros Hk. unfold update.
  set (w1 := fold_left update_line l (with_tool_list [] w)).
  assert (H1 : keyed w1).
  { subst w1. assert (H0 : keyed (with_tool_list [] w)) by exact Hk.
    revert H0. generalize (with_tool_list [] w).
    induction l as [|d l IH]; intros u Hu; [done|].
    simpl. apply IH. by apply update_line_keyed. }
  revert H1.
  generalize (if Nat.ltb 1 (length (delete_list w1)) then rev (delete_list w1)
              else delete_list w1).
  generalize w1. clear. intros u dl. revert u.
  induction dl as [|t dl IH]; intros u Hu; [done|].
  simpl. apply IH. by apply delrow_keyed.
Qed.

Lemma handle_keyed (e : event) (w : Tool_Database) :
  keyed w -> keyed (state_of (handle e w)).
Proof.
  intros Hk. destruct e as [|am|am|tl ar|row v|ta|]; cbn [handle state_of].
  - destruct (tool_timer_tables w) as (Ho & Ht & Ha).
    apply (keyed_same w); [by rewrite Ho | by rewrite Ht | done | done].
  - unfold interp_state. destruct am; cbn [negb state_of]; [|done].
    destruct (stop_tool_timer_tables w) as (Ho & Ht & Ha).
    apply (keyed_same w); [by rewrite Ho | done | done | done].
  - unfold interp_state. destruct am; cbn [negb state_of]; [|done].
    destruct (start_tool_timer_tables w) as (Ho & Ht & Ha).
    apply (keyed_same w); [by rewrite Ho | by rewrite Ht | done | done].
  - unfold tool_changed. destruct (Z.ltb 0 tl); [|by apply (keyed_same w)].
    destruct ar; [|by apply (keyed_same w)].
    set (u := with_timer_dict _ _).
    destruct (start_tool_timer_tables u) as (Ho & Ht & Ha).
    apply (keyed_same w); [by rewrite Ho | by rewrite Ht | by rewrite Ha | done].
  - apply (keyed_same w); [|done..].
    cbn [offset_model with_offset_model]. apply setData_check_role_idn.
  - by apply update_keyed.
  - destruct Hk as (Hl & H1 & H2 & H3 & H4). unfold keyed.
    cbn [offset_model tool_model autoinc with_tool_model].
    assert (Hp : map t_idn (tool_select (tool_model w)) ≡ₚ map t_idn (tool_model w)).
    { change (map t_idn ?m) with (t_idn <$> m). by rewrite tool_select_perm. }
    split; [by rewrite (Permutation_length (tool_select_perm _))|].
    split; [done|]. split; [by rewrite Hp|]. split; [done|].
    intros i Hi. rewrite Hp in Hi. by apply H4.
Qed.

(** In every state the widget reaches from a new database the two models
    have the same number of rows, no surrogate id repeats within a model,
    and no id is above the counter of the store; so the key
    [MyOffsetModel.addrow] hands to [MyToolModel.addrow] is new to the tools
    model, and the tools row is inserted. *)
Theorem reachable_keyed (w : Tool_Database) :
  reachable w ->
  length (tool_model w) = length (offset_model w)
  /\ NoDup (map o_idn (offset_model w))
  /\ NoDup (map t_idn (tool_model w))
  /\ (forall i, i ∈ map o_idn (offset_model w) -> i <= autoinc w)
  /\ (forall i, i ∈ map t_idn (tool_model w) -> i <= autoinc w)
  /\ (forall d,
        tool_model (addrow d w)
        = (tool_model w
           ++ [mkTool (next_idn w) (l_Tool d) 0 None None None None None None None])%list).
Proof.
  intros Hr.
  assert (Hk : keyed w).
  { induction Hr as [|e w Hr IH].
    - unfold keyed. cbn. repeat split; try apply NoDup_nil_2;
        intros i Hi; by apply elem_of_nil in Hi.
    - by apply handle_keyed. }
  pose proof Hk as (Hl & H1 & H2 & H3 & H4).
  repeat split; try done.
  intros d. exact (keyed_tool_addrow w (l_Tool d) Hk).
Qed.

Lemma reachable_keyed_witness :
  let w := state_of (handle (Reload [mkLine 3 3 0 0 0 0 0 0 0 0 0 0 0 0 0 "New tool";
                                     mkLine 1 1 0 0 0 0 0 0 0 0 0 0 0 0 0 "New tool"])
             (state_of (handle (Reload [mkLine 3 3 0 0 0 0 0 0 0 0 0 0 0 0 0 "New tool";
                                        mkLine 1 1 0 0 0 0 0 0 0 0 0 0 0 0 0 "New tool";
                                        mkLine 2 2 0 0 0 0 0 0 0 0 0 0 0 0 0 "New tool";
                                        mkLine 5 5 0 0 0 0 0 0 0 0 0 0 0 0 0 "New tool"])
                init))) in
  reachable w
  /\ map o_Tool (offset_model w) = [3; 1]
  /\ map t_TOOL (tool_model w) = [1; 2]
  /\ length (tool_model w) = length (offset_model w)
  /\ NoDup (map t_idn (tool_model w)).
Proof.
  intros w.
  assert (Hr : reachable w) by (do 2 apply reach_step; apply reach_init).
  split; [exact Hr|]. split; [reflexivity|]. split; [reflexivity|].
  destruct (reachable_keyed w Hr) as (H1 & _ & H3 & _).
  split; [exact H1 | exact H3].
Defined.
